(** * The object store of js-ipfs (core/components/object.js)

    A shallow embedding of the [object] component: [new], [put], [get],
    [data], [links], [stat] and the four [patch] operations, together with
    the helpers [normalizeMultihash], [parseBuffer], [parseJSONBuffer] and
    [parseProtoBuffer].

    The component is written in continuation-passing style over a handful
    of collaborators ([ipld-dag-pb], [cids], [multihashes], the IPLD
    resolver and its block service).  Every callback [cb(err, value)] is
    read as a value of [Result], and so is a call that throws: [Fail]
    stands for an error handed to the callback as well as for one
    thrown.  Operations that write to the block store are state-passing
    functions over [Store].

    The block component (core/components/block.js) and the path helpers
    of the download command (cli/commands/files/get.js) follow the
    object store. *)

From Stdlib Require Import ZArith String Ascii List Lia.
From Stdlib Require Import Strings.Byte.
From stdpp Require Import base option gmap strings list.

Open Scope string_scope.
Open Scope list_scope.

(** ** Bytes *)

(** A Node [Buffer] is a byte sequence. *)
Abbreviation Buffer := (list byte).

#[global] Instance byte_eq_dec : EqDecision byte := Byte.byte_eq_dec.

#[global] Instance byte_countable : Countable byte :=
  inj_countable Byte.to_N Byte.of_N Byte.of_to_N.

(** ** Failures *)

(** The error kinds of the design (section 7 of the specification). *)
Inductive ErrorKind :=
| MalformedIdentifier
| MalformedDocument
| UnknownEncoding
| UnrecognizedInput
| LinkNotFound
| NotFound
| VerificationFailed.

(** What a callback can receive as [err], or what a call can throw.  The
    first four are the [new Error(...)] values built in object.js, quoted
    with their message; [TypeError] is raised by the JavaScript runtime;
    [LibError] is a failure reported by a collaborator, which object.js
    hands on unchanged. *)
Inductive Error :=
| Error_unsupported_multihash                 (* 'unsupported multihash' *)
| Error_unknown_encoding (encoding : string)  (* `unkown encoding: ${encoding}` *)
| Error_failed_to_parse_JSON (err : Error)    (* 'failed to parse JSON: ' + err *)
| Error_obj_not_recognized                    (* 'obj not recognized' *)
| TypeError (msg : string)
| SyntaxError (msg : string)
| AssertionError (msg : string)
| LibError (k : ErrorKind).

(** The label a caller can read off a failure.  A runtime [TypeError] or
    [SyntaxError], or a failed assertion, carries none. *)
Definition kind (e : Error) : option ErrorKind :=
  match e with
  | Error_unsupported_multihash => Some MalformedIdentifier
  | Error_unknown_encoding _ => Some UnknownEncoding
  | Error_failed_to_parse_JSON _ => Some MalformedDocument
  | Error_obj_not_recognized => Some UnrecognizedInput
  | TypeError _ => None
  | SyntaxError _ => None
  | AssertionError _ => None
  | LibError k => Some k
  end.

Inductive Result (A : Type) :=
| Ok (a : A)
| Fail (e : Error).
Arguments Ok {A} a.
Arguments Fail {A} e.

Definition bindR {A B} (r : Result A) (k : A -> Result B) : Result B :=
  match r with
  | Ok a => k a
  | Fail e => Fail e
  end.

Notation "x <~ r ;; k" := (bindR r (fun x => k))
  (at level 100, r at next level, k at level 200, right associativity).

(** [xs.map(f)] where [f] may throw: the first failure aborts the map. *)
Fixpoint mapR {A B} (f : A -> Result B) (xs : list A) : Result (list B) :=
  match xs with
  | [] => Ok []
  | x :: xs' => y <~ f x;; ys <~ mapR f xs';; Ok (y :: ys)
  end.

(** ** JavaScript values, as far as object.js looks at them *)

(** A property that holds a string, or is [undefined]. *)
Abbreviation JSString := (option string).
(** A property that holds a number, or is [undefined].  Numbers are the
    integers a size can be, in the range where JavaScript adds and
    subtracts them exactly. *)
Abbreviation JSNumber := (option Z).

(** [a || b] on string-or-undefined operands: [a] when it is truthy (a
    non-empty string), [b] otherwise. *)
Definition or_string (a b : JSString) : JSString :=
  match a with
  | Some s => if decide (s = "") then b else a
  | None => b
  end.

(** [a || b] on number-or-undefined operands: [a] when it is truthy (a
    number other than 0), [b] otherwise. *)
Definition or_number (a b : JSNumber) : JSNumber :=
  match a with
  | Some n => if decide (n = 0%Z) then b else a
  | None => b
  end.

(** [if (x)] on a string-or-undefined value. *)
Definition truthy (x : JSString) : bool :=
  match x with
  | Some s => if decide (s = "") then false else true
  | None => false
  end.

(** The result of an arithmetic [+]: an integer, or [NaN] ([None]). *)
Abbreviation JSSum := (option Z).

(** [a + b] where [a] is a number or NaN and [b] a number or undefined. *)
Definition js_add (a : JSSum) (b : JSNumber) : JSSum :=
  match a, b with
  | Some x, Some y => Some (x + y)%Z
  | _, _ => None
  end.

(** ** The node model of ipld-dag-pb, as object.js sees it *)

Module DAGLink.
(** Modelled from the spec: the link of ipld-dag-pb, which is not part of
    this repository.  Section 3: a name, a target size and a target
    identifier; object.js reads [_name] and [size] back. *)
Record t := mk {
  _name : JSString;
  size : JSNumber;
  multihash : Buffer
}.

(** Modelled from the spec: [new DAGLink(name, size, multihash)].
    Section 3: a link has a target size.  The constructor refuses to
    build a link without one ('A link requires a size'); its test is
    the truthiness of [size], so [undefined] and 0 are both refused.
    The name is kept as it is handed in. *)
Definition new (name : JSString) (size : JSNumber) (multihash : Buffer) : Result t :=
  match size with
  | Some n => if decide (n = 0%Z) then Fail (AssertionError "A link requires a size")
              else Ok (mk name size multihash)
  | None => Fail (AssertionError "A link requires a size")
  end.
End DAGLink.

(** A parsed JSON document, typed as section 6 of the specification has
    it: every property is absent ([undefined]) or holds a value of its
    type.  A link object may spell each field in its canonical or in a
    lower-case form. *)
Record JSONLink := {
  Name : JSString;  name : JSString;
  Size : JSNumber;  size : JSNumber;
  Hash : JSString;  hash : JSString;  multihash : JSString
}.

Record JSONDoc := {
  Data : JSString;
  Links : option (list JSONLink)
}.

(** ** Collaborators *)

(** The functions object.js calls without defining them.  Nothing is
    assumed about them here; a theorem that needs a law of one of them
    states it as a hypothesis. *)
Class Externals := {
  (** [multihashing(serialized, 'sha2-256')]: the identifier of a block. *)
  multihashing : Buffer -> Buffer;
  (** Whether bytes decode to a (function, length, digest) triple, as
      [new CID(buffer)] checks. *)
  mh_validate : Buffer -> bool;
  (** The binary codec on (payload, links in order). *)
  pb_encode : Buffer -> list DAGLink.t -> Buffer;
  pb_decode : Buffer -> Result (Buffer * list DAGLink.t);
  (** [mh.fromB58String(x)] and [mh.toB58String(b)]. *)
  fromB58String : JSString -> Result Buffer;
  toB58String : Buffer -> string;
  (** [JSON.parse(buf.toString())]. *)
  JSON_parse : Buffer -> Result JSONDoc;
  (** [new Buffer(str, enc)]. *)
  Buffer_from : string -> JSString -> Result Buffer
}.

Module DAGNode.
Record t := mk {
  data : Buffer;
  links : list DAGLink.t;
  multihash : Buffer
}.

Section Ops.
Context `{Externals}.

(** Modelled from the spec: [DAGNode.create] of ipld-dag-pb, which is
    not part of this repository.  Section 4.2: it builds a node from a
    payload and links; the identifier the node carries is the hash of
    its own serialized form. *)
Definition create (data : Buffer) (links : list DAGLink.t) : Result t :=
  Ok (mk data links (multihashing (pb_encode data links))).

(** Modelled from the spec: [DAGNode.addLink] of ipld-dag-pb.  Section
    4.2: the original links in their order, then the new one. *)
Definition addLink (node : t) (link : DAGLink.t) : Result t :=
  create (data node) (links node ++ [link]).

Definition named (name : JSString) (l : DAGLink.t) : bool :=
  bool_decide (DAGLink._name l = name).

(** Modelled from the spec: [DAGNode.rmLink] of ipld-dag-pb.  Section
    4.2: all links of that name are removed; [LinkNotFound] when no
    link has that name. *)
Definition rmLink (node : t) (name : JSString) : Result t :=
  if existsb (named name) (links node)
  then create (data node) (List.filter (fun l => negb (named name l)) (links node))
  else Fail (LibError LinkNotFound).
End Ops.
End DAGNode.

Module dagPB.
Section Util.
Context `{Externals}.

(** Modelled from the spec: [dagPB.util.serialize(node, cb)] of
    ipld-dag-pb.  Section 4.3: the binary encoding of the payload and the
    links in order. *)
Definition serialize (node : DAGNode.t) : Result Buffer :=
  Ok (pb_encode (DAGNode.data node) (DAGNode.links node)).

(** Modelled from the spec: [dagPB.util.deserialize(buf, cb)] of
    ipld-dag-pb.  Sections 3 and 4.3: the inverse of the encoding; the
    identifier of the decoded node is derived from its content. *)
Definition deserialize (buf : Buffer) : Result DAGNode.t :=
  decoded <~ pb_decode buf;;
  DAGNode.create (fst decoded) (snd decoded).
End Util.
End dagPB.

(** ** Identifiers *)

(** A version-0 identifier: codec dag-pb, and the multihash. *)
Record CID := { cid_multihash : Buffer }.

Section Cids.
Context `{Externals}.

(** Modelled from the spec: [new CID(x)] of cids.  Section 4.1: a
    base-58 string is expanded to bytes first; bytes that do not decode
    to a valid multihash are a [MalformedIdentifier]. *)
Definition new_CID (x : string + Buffer) : Result CID :=
  bytes <~ match x with
           | inl s => fromB58String (Some s)
           | inr b => Ok b
           end;;
  if mh_validate bytes then Ok {| cid_multihash := bytes |}
  else Fail (LibError MalformedIdentifier).
End Cids.

(** ** The block store and the resolver in front of it *)

(** The blocks held, keyed by the identifier's multihash, and the trace of
    block writes issued so far (ghost state: identifier and bytes of every
    [put] the block service has received, oldest first). *)
Record Store := {
  blocks : gmap Buffer Buffer;
  writes : list (Buffer * Buffer)
}.

Definition empty_store : Store := {| blocks := ∅; writes := [] |}.

Module blockService.
(** Modelled from the spec: the block service, which is not part of this
    repository.  Section 4.5: [get] of an identifier never stored fails
    with [NotFound]; otherwise it returns the bytes last put there. *)
Definition get (cid : CID) (s : Store) : Result Buffer :=
  match blocks s !! cid_multihash cid with
  | Some bytes => Ok bytes
  | None => Fail (LibError NotFound)
  end.

(** Modelled from the spec: section 4.5, [put(bytes, identifier)]. *)
Definition put (bytes : Buffer) (cid : CID) (s : Store) : Result unit * Store :=
  (Ok tt,
   {| blocks := <[cid_multihash cid := bytes]> (blocks s);
      writes := writes s ++ [(cid_multihash cid, bytes)] |}).
End blockService.

Module ipldResolver.
Section Resolver.
Context `{Externals}.

(** Modelled from the spec: the resolver's [put({node, cid}, cb)], not
    part of this repository.  Section 2, data flow: the node is
    serialized and the bytes are persisted under the identifier. *)
Definition put (node : DAGNode.t) (cid : CID) (s : Store) : Result unit * Store :=
  match dagPB.serialize node with
  | Ok bytes => blockService.put bytes cid s
  | Fail e => (Fail e, s)
  end.

(** Modelled from the spec: the resolver's [get(cid, cb)].  Sections
    2, 3 and 4.4: the block is fetched from the block store, the hash of
    the bytes returned is recomputed and compared with the identifier
    ([VerificationFailed] when they differ), and the bytes are
    decoded. *)
Definition get (cid : CID) (s : Store) : Result DAGNode.t :=
  bytes <~ blockService.get cid s;;
  if decide (multihashing bytes = cid_multihash cid) then dagPB.deserialize bytes
  else Fail (LibError VerificationFailed).
End Resolver.
End ipldResolver.

(** ** object.js *)

(** The [multihash] argument of [get] and of the operations built on it. *)
Inductive MultihashArg :=
| MhString (s : string)
| MhBuffer (b : Buffer)
| MhOther.                       (* any other value *)

(** The [options] argument; [{}] when the caller passes none. *)
Record Options := { enc : JSString }.
Definition no_options : Options := {| enc := None |}.

(** A value that is neither a Buffer nor an object. *)
Inductive Primitive :=
| PString (s : string)
| PNumber (n : Z)
| PBoolean (b : bool)
| PFunction.

(** The [obj] argument of [put], by what the tests in [put] see of it. *)
Inductive PutArg :=
| PutBuffer (b : Buffer)                                   (* Buffer.isBuffer(obj) *)
| PutNode (node : DAGNode.t)                               (* obj.multihash is set *)
| PutObject (Data : Buffer) (Links : list DAGLink.t)       (* typeof obj === 'object' *)
| PutPrimitive (v : Primitive)
| PutNull
| PutUndefined.

(** The [linkRef] argument of [patch.rmLink]. *)
Inductive LinkRef :=
| RefLink (l : DAGLink.t)        (* linkRef.constructor.name === 'DAGLink' *)
| RefName (name : string).

(** The six fields [stat] reports. *)
Record Stat := {
  stat_Hash : string;
  NumLinks : Z;
  BlockSize : Z;
  LinksSize : Z;
  DataSize : Z;
  CumulativeSize : JSSum
}.

Section ObjectStore.
Context `{Externals}.

Definition normalizeMultihash (multihash : MultihashArg) (enc : JSString)
  : Result (string + Buffer) :=
  match multihash with
  | MhString s =>
      if decide (enc = Some "base58") then Ok (inl s)
      else b <~ Buffer_from s enc;; Ok (inr b)
  | MhBuffer b => Ok (inr b)
  | MhOther => Fail Error_unsupported_multihash
  end.

(** The arguments the callback of [parsed.Links.map] hands to
    [new DAGLink] and [mh.fromB58String]. *)
Definition link_name (link : JSONLink) : JSString := or_string (Name link) (name link).
Definition link_size (link : JSONLink) : JSNumber := or_number (Size link) (size link).
Definition link_hash (link : JSONLink) : JSString :=
  or_string (or_string (Hash link) (hash link)) (multihash link).

Definition parseJSONLink (link : JSONLink) : Result DAGLink.t :=
  mh <~ fromB58String (link_hash link);;
  DAGLink.new (link_name link) (link_size link) mh.

(** The body of the [try] block of [parseJSONBuffer] after
    [JSON.parse]: the links, then the payload. *)
Definition parseJSONDoc (parsed : JSONDoc) : Result (Buffer * list DAGLink.t) :=
  links <~ mapR parseJSONLink (default [] (Links parsed));;
  data <~ match Data parsed with
          | Some str => Buffer_from str None
          | None => Fail (TypeError "new Buffer(undefined)")
          end;;
  Ok (data, links).

Definition parseJSONBuffer (buf : Buffer) : Result DAGNode.t :=
  match (parsed <~ JSON_parse buf;; parseJSONDoc parsed) with
  | Fail err => Fail (Error_failed_to_parse_JSON err)
  | Ok (data, links) => DAGNode.create data links
  end.

Definition parseProtoBuffer (buf : Buffer) : Result DAGNode.t :=
  dagPB.deserialize buf.

Definition parseBuffer (buf : Buffer) (encoding : JSString) : Result DAGNode.t :=
  if decide (encoding = Some "json") then parseJSONBuffer buf
  else if decide (encoding = Some "protobuf") then parseProtoBuffer buf
  else Fail (Error_unknown_encoding (default "undefined" encoding)).
End ObjectStore.

Module object.
Section Ops.
Context `{Externals}.

(** [get(multihash, options, callback)].  A failure of
    [normalizeMultihash] is caught and handed to the callback; one of
    [new CID] is thrown; the answer of the resolver is the answer. *)
Definition get (multihash : MultihashArg) (options : Options) (s : Store)
  : Result DAGNode.t :=
  mh <~ normalizeMultihash multihash (enc options);;
  cid <~ new_CID mh;;
  ipldResolver.get cid s.

(** [new(callback)]. *)
Definition new (s : Store) : Result DAGNode.t * Store :=
  match DAGNode.create [] [] with
  | Fail err => (Fail err, s)
  | Ok node =>
      match new_CID (inr (DAGNode.multihash node)) with
      | Fail err => (Fail err, s)
      | Ok cid =>
          match ipldResolver.put node cid s with
          | (Fail err, s') => (Fail err, s')
          | (Ok _, s') => (Ok node, s')
          end
      end
  end.

(** The local function [next] of [put]: persist [node], then fetch it
    again by its multihash. *)
Definition put_next (node : DAGNode.t) (s : Store) : Result DAGNode.t * Store :=
  match new_CID (inr (DAGNode.multihash node)) with
  | Fail err => (Fail err, s)
  | Ok cid =>
      match ipldResolver.put node cid s with
      | (Fail err, s') => (Fail err, s')
      | (Ok _, s') => (get (MhBuffer (DAGNode.multihash node)) no_options s', s')
      end
  end.

(** The branches of [put] that turn [obj] into a node, before [next]
    runs.  [null] and [undefined] have no properties: reading
    [obj.multihash] throws. *)
Definition put_node (obj : PutArg) (encoding : JSString) : Result DAGNode.t :=
  match obj with
  | PutBuffer buf =>
      if truthy encoding then parseBuffer buf encoding
      else DAGNode.create buf []
  | PutNode node => Ok node
  | PutObject Data Links => DAGNode.create Data Links
  | PutPrimitive _ => Fail Error_obj_not_recognized
  | PutNull => Fail (TypeError "Cannot read property 'multihash' of null")
  | PutUndefined => Fail (TypeError "Cannot read property 'multihash' of undefined")
  end.

(** [put(obj, options, callback)]. *)
Definition put (obj : PutArg) (options : Options) (s : Store)
  : Result DAGNode.t * Store :=
  let encoding := enc options in
  match put_node obj encoding with
  | Fail err => (Fail err, s)
  | Ok node => put_next node s
  end.

(** [data(multihash, options, callback)]. *)
Definition data (multihash : MultihashArg) (options : Options) (s : Store)
  : Result Buffer :=
  node <~ get multihash options s;;
  Ok (DAGNode.data node).

(** [links(multihash, options, callback)]. *)
Definition links (multihash : MultihashArg) (options : Options) (s : Store)
  : Result (list DAGLink.t) :=
  node <~ get multihash options s;;
  Ok (DAGNode.links node).

(** [node.links.reduce((a, l) => a + l.size, 0)]. *)
Definition linkLength (node : DAGNode.t) : JSSum :=
  fold_left (fun a l => js_add a (DAGLink.size l)) (DAGNode.links node) (Some 0%Z).

(** [stat(multihash, options, callback)]. *)
Definition stat (multihash : MultihashArg) (options : Options) (s : Store)
  : Result Stat :=
  node <~ get multihash options s;;
  serialized <~ dagPB.serialize node;;
  let blockSize := Z.of_nat (length serialized) in
  let linkLength := linkLength node in
  Ok {| stat_Hash := toB58String (DAGNode.multihash node);
        NumLinks := Z.of_nat (length (DAGNode.links node));
        BlockSize := blockSize;
        LinksSize := blockSize - Z.of_nat (length (DAGNode.data node));
        DataSize := Z.of_nat (length (DAGNode.data node));
        CumulativeSize := js_add (Some blockSize) linkLength |}.

(** [editAndSave(edit)(multihash, options, callback)]: fetch, edit,
    persist the edited node under its own multihash, return it. *)
Definition editAndSave (edit : DAGNode.t -> Result DAGNode.t)
    (multihash : MultihashArg) (options : Options) (s : Store)
  : Result DAGNode.t * Store :=
  match get multihash options s with
  | Fail err => (Fail err, s)
  | Ok node =>
      match edit node with
      | Fail err => (Fail err, s)
      | Ok node' =>
          match new_CID (inr (DAGNode.multihash node')) with
          | Fail err => (Fail err, s)
          | Ok cid =>
              match ipldResolver.put node' cid s with
              | (Fail err, s') => (Fail err, s')
              | (Ok _, s') => (Ok node', s')
              end
          end
      end
  end.
End Ops.

Module patch.
Section Ops.
Context `{Externals}.

Definition addLink (multihash : MultihashArg) (link : DAGLink.t)
    (options : Options) :=
  editAndSave (fun node => DAGNode.addLink node link) multihash options.

(** A [DAGLink] is reduced to its [_name] before the removal. *)
Definition rmLink (multihash : MultihashArg) (linkRef : LinkRef)
    (options : Options) :=
  editAndSave (fun node =>
    let linkRef' := match linkRef with
                    | RefLink l => DAGLink._name l
                    | RefName name => Some name
                    end in
    DAGNode.rmLink node linkRef') multihash options.

Definition appendData (multihash : MultihashArg) (data : Buffer)
    (options : Options) :=
  editAndSave (fun node =>
    let newData := DAGNode.data node ++ data in
    DAGNode.create newData (DAGNode.links node)) multihash options.

Definition setData (multihash : MultihashArg) (data : Buffer)
    (options : Options) :=
  editAndSave (fun node =>
    DAGNode.create data (DAGNode.links node)) multihash options.
End Ops.
End patch.
End object.

(** ** block.js *)

(** Modelled from the spec: the block of ipfs-block, which is not part of
    this repository.  Section 3: the raw bytes; the identifier travels
    beside it. *)
Record Block := { Block_data : Buffer }.

(** Modelled from the spec: the block service's [delete], not part of
    this repository.  Section 4.5: after it, [get] of the identifier
    fails with [NotFound]. *)
Definition blockService_delete (cid : CID) (s : Store) : Result unit * Store :=
  (Ok tt, {| blocks := delete (cid_multihash cid) (blocks s); writes := writes s |}).

(** The [cid] argument of [get], [rm] and [stat]: a CID object, or
    something [new CID] is to read. *)
Inductive CidArg :=
| IsCID (cid : CID)                  (* CID.isCID(cid) *)
| NotCID (x : string + Buffer).

(** The [block] argument of [put]. *)
Inductive BlockArg :=
| BlockArray                         (* Array.isArray(block) *)
| BlockBuffer (b : Buffer)           (* Buffer.isBuffer(block) *)
| BlockObject (blk : Block).

(** What [put] can fail with: its own error, or one handed on. *)
Inductive BlockError :=
| Error_Array_is_not_supported       (* 'Array is not supported' *)
| Passed (err : Error).

Inductive BlockResult (A : Type) :=
| Done (a : A)
| Refused (e : BlockError).
Arguments Done {A} a.
Arguments Refused {A} e.

Module block.
(** What [stat] reports. *)
Record Stat := { key : string; size : Z }.

Section Ops.
Context `{Externals}.

Definition cleanCid (cid : CidArg) : Result CID :=
  match cid with
  | IsCID cid => Ok cid
  | NotCID x => new_CID x
  end.

(** [get(cid, callback)]. *)
Definition get (cid : CidArg) (s : Store) : Result Block :=
  cid <~ cleanCid cid;;
  bytes <~ blockService.get cid s;;
  Ok {| Block_data := bytes |}.

(** The block [put] goes on with: a buffer is wrapped, an array is not
    a block. *)
Definition as_Block (block : BlockArg) : option Block :=
  match block with
  | BlockArray => None
  | BlockBuffer b => Some {| Block_data := b |}
  | BlockObject blk => Some blk
  end.

(** [put(block, cid, callback)]; [cid] is [None] for the legacy call
    without one.  [block.key('sha2-256')] is the hash of the bytes. *)
Definition put (block : BlockArg) (cid : option CID) (s : Store)
  : BlockResult Block * Store :=
  match as_Block block with
  | None => (Refused Error_Array_is_not_supported, s)
  | Some blk =>
      match (match cid with
             | Some cid => Ok cid
             | None => new_CID (inr (multihashing (Block_data blk)))
             end) with
      | Fail err => (Refused (Passed err), s)
      | Ok cid =>
          match blockService.put (Block_data blk) cid s with
          | (Fail err, s') => (Refused (Passed err), s')
          | (Ok _, s') => (Done blk, s')
          end
      end
  end.

(** [rm(cid, callback)]. *)
Definition rm (cid : CidArg) (s : Store) : Result unit * Store :=
  match cleanCid cid with
  | Fail err => (Fail err, s)
  | Ok cid => blockService_delete cid s
  end.

(** [stat(cid, callback)]. *)
Definition stat (cid : CidArg) (s : Store) : Result Stat :=
  cid <~ cleanCid cid;;
  bytes <~ blockService.get cid s;;
  Ok {| key := toB58String (cid_multihash cid);
        size := Z.of_nat (length bytes) |}.
End Ops.
End block.

(** ** cli/commands/files/get.js *)

(** The string methods get.js calls, on strings as sequences of code
    units. *)
Module JSStr.
Definition startsWith (s prefix : string) : bool := String.prefix prefix s.

Definition endsWith (s suffix : string) : bool :=
  let n := String.length s in
  let m := String.length suffix in
  if (m <=? n)%nat then String.eqb (String.substring (n - m) m s) suffix else false.

(** [s.lastIndexOf(c)] for a search string of one code unit: the index
    of its last occurrence, or -1. *)
Fixpoint lastIndexOf_from (c : ascii) (s : string) (i found : Z) : Z :=
  match s with
  | EmptyString => found
  | String c' s' =>
      lastIndexOf_from c s' (i + 1)%Z (if Ascii.eqb c c' then i else found)
  end.

Definition lastIndexOf (s : string) (c : ascii) : Z := lastIndexOf_from c s 0%Z (-1)%Z.

(** [s.substring(start, end)]: both indices are clamped to the string
    and swapped when out of order. *)
Definition substring (s : string) (start end_ : Z) : string :=
  let len := Z.of_nat (String.length s) in
  let a := Z.max 0 (Z.min start len) in
  let b := Z.max 0 (Z.min end_ len) in
  String.substring (Z.to_nat (Z.min a b)) (Z.to_nat (Z.max a b - Z.min a b)) s.
End JSStr.

Module files_get.
Section Paths.
(** [path.join] of Node. *)
Variable path_join : string -> string -> string.

(** [checkArgs(hash, outPath)]: the output directory, with a slash at
    its end and at its start. *)
Definition checkArgs (hash outPath : string) : string :=
  let outPath := if JSStr.endsWith outPath "/" then outPath else String.append outPath "/" in
  let outPath := if JSStr.startsWith outPath "/" then outPath else path_join "/" outPath in
  outPath.

(** [filePath] of [ensureDirFor]: the path of the file up to and with
    its last slash. *)
Definition filePath (path : string) : string :=
  let lastSlash := JSStr.lastIndexOf path "/"%char in
  JSStr.substring path 0 (lastSlash + 1).

(** [ensureDirFor(dir, file, callback)]: the directory [mkdirp] is asked
    to make. *)
Definition ensureDirFor (dir path : string) : string :=
  let dirPath := path_join dir (filePath path) in
  dirPath.
End Paths.
End files_get.

(** ** An instance of the collaborators

    One concrete choice for every function of [Externals], so that the
    operations above can be run on concrete inputs: the dag-pb wire
    format (protobuf fields, links before payload), the identity
    multihash (function code 0), base-58 in the Bitcoin alphabet, UTF-8
    buffers, and a reader for JSON documents of the shape of section 6. *)
Module Sample.

Definition byte_of_N (n : N) : byte := default x00 (Byte.of_N n).

(** *** Protobuf varints *)

Fixpoint varint_fuel (fuel : nat) (n : N) : Buffer :=
  match fuel with
  | O => []
  | S fuel' =>
      if (n <? 128)%N then [byte_of_N n]
      else byte_of_N (128 + n mod 128)%N :: varint_fuel fuel' (n / 128)%N
  end.

Definition varint (n : N) : Buffer := varint_fuel (S (N.to_nat (N.log2 n))) n.

Fixpoint unvarint (bs : Buffer) : option (N * Buffer) :=
  match bs with
  | [] => None
  | b :: rest =>
      let v := Byte.to_N b in
      if (v <? 128)%N then Some (v, rest)
      else match unvarint rest with
           | Some (hi, rest') => Some (v - 128 + 128 * hi, rest')%N
           | None => None
           end
  end.

(** A length-delimited field: the length as a varint, then the bytes. *)
Definition delimited (bs : Buffer) : Buffer :=
  varint (N.of_nat (length bs)) ++ bs.

Definition undelimited (bs : Buffer) : option (Buffer * Buffer) :=
  match unvarint bs with
  | Some (n, rest) =>
      if (N.to_nat n <=? length rest)%nat
      then Some (firstn (N.to_nat n) rest, skipn (N.to_nat n) rest)
      else None
  | None => None
  end.

(** *** The dag-pb wire format *)

(** PBLink: Hash is field 1, Name field 2, Tsize field 3; a property
    that is [undefined] is left out. *)
Definition encode_link (l : DAGLink.t) : Buffer :=
  (x0a :: delimited (DAGLink.multihash l))
  ++ match DAGLink._name l with
     | Some name => x12 :: delimited (list_byte_of_string name)
     | None => []
     end
  ++ match DAGLink.size l with
     | Some size => x18 :: varint (Z.to_N size)
     | None => []
     end.

(** PBNode: Links is field 2 and is written first, Data is field 1 and
    is left out when empty. *)
Definition encode (data : Buffer) (links : list DAGLink.t) : Buffer :=
  flat_map (fun l => x12 :: delimited (encode_link l)) links
  ++ match data with
     | [] => []
     | _ => x0a :: delimited data
     end.

Fixpoint decode_link (fuel : nat) (bs : Buffer) (acc : DAGLink.t) : option DAGLink.t :=
  match fuel, bs with
  | _, [] => Some acc
  | O, _ => None
  | S fuel', tag :: rest =>
      if decide (tag = x0a) then
        match undelimited rest with
        | Some (mh, rest') =>
            decode_link fuel' rest' (DAGLink.mk (DAGLink._name acc) (DAGLink.size acc) mh)
        | None => None
        end
      else if decide (tag = x12) then
        match undelimited rest with
        | Some (name, rest') =>
            decode_link fuel' rest'
              (DAGLink.mk (Some (string_of_list_byte name)) (DAGLink.size acc) (DAGLink.multihash acc))
        | None => None
        end
      else if decide (tag = x18) then
        match unvarint rest with
        | Some (size, rest') =>
            decode_link fuel' rest'
              (DAGLink.mk (DAGLink._name acc) (Some (Z.of_N size)) (DAGLink.multihash acc))
        | None => None
        end
      else None
  end.

Fixpoint decode_node (fuel : nat) (bs : Buffer) (data : Buffer) (links : list DAGLink.t)
  : option (Buffer * list DAGLink.t) :=
  match fuel, bs with
  | _, [] => Some (data, links)
  | O, _ => None
  | S fuel', tag :: rest =>
      match undelimited rest with
      | Some (field, rest') =>
          if decide (tag = x12) then
            match decode_link (length field) field (DAGLink.mk None None []) with
            | Some fields =>
                match DAGLink.new (DAGLink._name fields) (DAGLink.size fields)
                        (DAGLink.multihash fields) with
                | Ok l => decode_node fuel' rest' data (links ++ [l])
                | Fail _ => None
                end
            | None => None
            end
          else if decide (tag = x0a) then decode_node fuel' rest' field links
          else None
      | None => None
      end
  end.

Definition decode (bs : Buffer) : Result (Buffer * list DAGLink.t) :=
  match decode_node (length bs) bs [] [] with
  | Some node => Ok node
  | None => Fail (SyntaxError "dag-pb: invalid wire format")
  end.

(** *** The identity multihash: function code 0, length, the bytes *)

Definition identity_multihash (bs : Buffer) : Buffer := x00 :: delimited bs.

Definition validate (mh : Buffer) : bool :=
  match mh with
  | _code :: rest =>
      match unvarint rest with
      | Some (n, digest) => (N.to_nat n =? length digest)%nat
      | None => false
      end
  | [] => false
  end.

(** *** Base 58 *)

Definition alphabet : string :=
  "123456789ABCDEFGHJKLMNPQRSTUVWXYZabcdefghijkmnopqrstuvwxyz".

Fixpoint index_of (c : ascii) (s : string) : option N :=
  match s with
  | EmptyString => None
  | String c' s' => if Ascii.eqb c c' then Some 0%N else N.succ <$> index_of c s'
  end.

(** The digits of [n] in base [base], most significant first. *)
Fixpoint digits_fuel (fuel : nat) (base n : N) (acc : list N) : list N :=
  match fuel with
  | O => acc
  | S fuel' =>
      if (n =? 0)%N then acc
      else digits_fuel fuel' base (n / base)%N ((n mod base)%N :: acc)
  end.

Definition digits (base n : N) : list N :=
  digits_fuel (S (N.to_nat (N.log2 n))) base n [].

Definition undigits (base : N) (ds : list N) : N :=
  fold_left (fun acc d => acc * base + d)%N ds 0%N.

Fixpoint leading {A} (p : A -> bool) (xs : list A) : nat :=
  match xs with
  | x :: xs' => if p x then S (leading p xs') else O
  | [] => O
  end.

Definition b58_encode (bs : Buffer) : string :=
  string_of_list_ascii
    (repeat "1"%char (leading (Byte.eqb x00) bs)
     ++ map (fun d => nth (N.to_nat d) (list_ascii_of_string alphabet) "1"%char)
          (digits 58 (undigits 256 (map Byte.to_N bs)))).

Definition b58_decode (str : string) : option Buffer :=
  let cs := list_ascii_of_string str in
  ds ← mapM (fun c => index_of c alphabet) cs;
  Some (repeat x00 (leading (Ascii.eqb "1"%char) cs)
        ++ map byte_of_N (digits 256 (undigits 58 ds))).

Definition from_b58 (x : JSString) : Result Buffer :=
  match x with
  | Some str =>
      match b58_decode str with
      | Some bs => Ok bs
      | None => Fail (LibError MalformedIdentifier)
      end
  | None => Fail (TypeError "Expected String")
  end.

(** *** Buffers from strings: UTF-8 only *)

Definition buffer_from (str : string) (enc : JSString) : Result Buffer :=
  match enc with
  | None => Ok (list_byte_of_string str)
  | Some e =>
      if decide (e = "utf8") then Ok (list_byte_of_string str)
      else Fail (TypeError "Unknown encoding")
  end.

(** *** A reader for JSON documents of the shape of section 6

    An object with the properties [Data] (a string) and [Links] (an
    array of objects whose properties are strings and integers under
    the seven names of [JSONLink]).  Strings hold no escapes.  Any
    other text is refused. *)

Definition is_ws (c : ascii) : bool :=
  Ascii.eqb c " "%char || Ascii.eqb c "010"%char
  || Ascii.eqb c "013"%char || Ascii.eqb c "009"%char.

Fixpoint skip_ws (s : string) : string :=
  match s with
  | String c s' => if is_ws c then skip_ws s' else s
  | EmptyString => s
  end.

Definition expect (c : ascii) (s : string) : option string :=
  match skip_ws s with
  | String c' s' => if Ascii.eqb c c' then Some s' else None
  | EmptyString => None
  end.

(** The characters up to the closing quote. *)
Fixpoint read_chars (s : string) : option (string * string) :=
  match s with
  | EmptyString => None
  | String c s' =>
      if Ascii.eqb c "034"%char then Some (EmptyString, s')
      else if Ascii.eqb c "092"%char then None
      else match read_chars s' with
           | Some (str, rest) => Some (String c str, rest)
           | None => None
           end
  end.

Definition read_string (s : string) : option (string * string) :=
  s' ← expect "034"%char s; read_chars s'.

Definition digit (c : ascii) : option N :=
  let n := N_of_ascii c in
  if ((48 <=? n) && (n <=? 57))%N then Some (n - 48)%N else None.

Fixpoint read_digits (s : string) (acc : N) : N * string :=
  match s with
  | String c s' =>
      match digit c with
      | Some d => read_digits s' (10 * acc + d)%N
      | None => (acc, s)
      end
  | EmptyString => (acc, s)
  end.

Definition read_natural (s : string) : option (N * string) :=
  match s with
  | String c _ =>
      match digit c with
      | Some _ => Some (read_digits s 0%N)
      | None => None
      end
  | EmptyString => None
  end.

Definition read_integer (s : string) : option (Z * string) :=
  match skip_ws s with
  | String "-"%char s' => '(n, rest) ← read_natural s'; Some (- Z.of_N n, rest)%Z
  | s' => '(n, rest) ← read_natural s'; Some (Z.of_N n, rest)
  end.

Definition no_link : JSONLink :=
  {| Name := None; name := None; Size := None; size := None;
     Hash := None; hash := None; multihash := None |}.

(** Read the value of property [key] of a link object into [l]. *)
Definition read_link_property (key : string) (s : string) (l : JSONLink)
  : option (JSONLink * string) :=
  if decide (key = "Name") then
    '(v, rest) ← read_string s;
    Some ({| Name := Some v; name := name l; Size := Size l; size := size l;
             Hash := Hash l; hash := hash l; multihash := multihash l |}, rest)
  else if decide (key = "name") then
    '(v, rest) ← read_string s;
    Some ({| Name := Name l; name := Some v; Size := Size l; size := size l;
             Hash := Hash l; hash := hash l; multihash := multihash l |}, rest)
  else if decide (key = "Size") then
    '(v, rest) ← read_integer s;
    Some ({| Name := Name l; name := name l; Size := Some v; size := size l;
             Hash := Hash l; hash := hash l; multihash := multihash l |}, rest)
  else if decide (key = "size") then
    '(v, rest) ← read_integer s;
    Some ({| Name := Name l; name := name l; Size := Size l; size := Some v;
             Hash := Hash l; hash := hash l; multihash := multihash l |}, rest)
  else if decide (key = "Hash") then
    '(v, rest) ← read_string s;
    Some ({| Name := Name l; name := name l; Size := Size l; size := size l;
             Hash := Some v; hash := hash l; multihash := multihash l |}, rest)
  else if decide (key = "hash") then
    '(v, rest) ← read_string s;
    Some ({| Name := Name l; name := name l; Size := Size l; size := size l;
             Hash := Hash l; hash := Some v; multihash := multihash l |}, rest)
  else if decide (key = "multihash") then
    '(v, rest) ← read_string s;
    Some ({| Name := Name l; name := name l; Size := Size l; size := size l;
             Hash := Hash l; hash := hash l; multihash := Some v |}, rest)
  else None.

(** The properties of a link object, after its opening brace. *)
Fixpoint read_link_properties (fuel : nat) (s : string) (l : JSONLink)
  : option (JSONLink * string) :=
  match fuel with
  | O => None
  | S fuel' =>
      '(key, s1) ← read_string s;
      s2 ← expect ":"%char s1;
      '(l', s3) ← read_link_property key s2 l;
      match skip_ws s3 with
      | String c s4 =>
          if Ascii.eqb c ","%char then read_link_properties fuel' s4 l'
          else if Ascii.eqb c "}"%char then Some (l', s4)
          else None
      | EmptyString => None
      end
  end.

Definition read_link (s : string) : option (JSONLink * string) :=
  s1 ← expect "{"%char s;
  match expect "}"%char s1 with
  | Some s2 => Some (no_link, s2)
  | None => read_link_properties (String.length s1) s1 no_link
  end.

(** The elements of the [Links] array, after its opening bracket. *)
Fixpoint read_links (fuel : nat) (s : string) (acc : list JSONLink)
  : option (list JSONLink * string) :=
  match fuel with
  | O => None
  | S fuel' =>
      '(l, s1) ← read_link s;
      match skip_ws s1 with
      | String c s2 =>
          if Ascii.eqb c ","%char then read_links fuel' s2 (acc ++ [l])
          else if Ascii.eqb c "]"%char then Some (acc ++ [l], s2)
          else None
      | EmptyString => None
      end
  end.

Definition read_array (s : string) : option (list JSONLink * string) :=
  s1 ← expect "["%char s;
  match expect "]"%char s1 with
  | Some s2 => Some ([], s2)
  | None => read_links (String.length s1) s1 []
  end.

(** The properties of the document, after its opening brace. *)
Fixpoint read_doc_properties (fuel : nat) (s : string) (doc : JSONDoc)
  : option (JSONDoc * string) :=
  match fuel with
  | O => None
  | S fuel' =>
      '(key, s1) ← read_string s;
      s2 ← expect ":"%char s1;
      '(doc', s3) ←
        (if decide (key = "Data") then
           '(v, rest) ← read_string s2;
           Some ({| Data := Some v; Links := Links doc |}, rest)
         else if decide (key = "Links") then
           '(v, rest) ← read_array s2;
           Some ({| Data := Data doc; Links := Some v |}, rest)
         else None);
      match skip_ws s3 with
      | String c s4 =>
          if Ascii.eqb c ","%char then read_doc_properties fuel' s4 doc'
          else if Ascii.eqb c "}"%char then Some (doc', s4)
          else None
      | EmptyString => None
      end
  end.

Definition read_doc (s : string) : option JSONDoc :=
  s1 ← expect "{"%char s;
  '(doc, rest) ←
    match expect "}"%char s1 with
    | Some s2 => Some ({| Data := None; Links := None |}, s2)
    | None => read_doc_properties (String.length s1) s1 {| Data := None; Links := None |}
    end;
  match skip_ws rest with
  | EmptyString => Some doc
  | _ => None
  end.

Definition json_parse (buf : Buffer) : Result JSONDoc :=
  match read_doc (string_of_list_byte buf) with
  | Some doc => Ok doc
  | None => Fail (SyntaxError "Unexpected token in JSON")
  end.

#[export] Instance externals : Externals := {|
  multihashing := identity_multihash;
  mh_validate := validate;
  pb_encode := encode;
  pb_decode := decode;
  fromB58String := from_b58;
  toB58String := b58_encode;
  JSON_parse := json_parse;
  Buffer_from := buffer_from
|}.
End Sample.

(** ** Concrete inputs *)

Module Inputs.
Import Sample.

(** JSON text, written with an apostrophe for each double quote. *)
Definition json (text : string) : Buffer :=
  list_byte_of_string
    (string_of_list_ascii
       (map (fun c => if Ascii.eqb c "'"%char then "034"%char else c)
            (list_ascii_of_string text))).

(** The multihash of the node with empty payload and no links. *)
Definition empty_multihash : Buffer := multihashing (pb_encode [] []).

(** A payload of three bytes and one link that declares size 10. *)
Definition abc : Buffer := [x61; x62; x63].
Definition link_a : DAGLink.t := DAGLink.mk (Some "a") (Some 10%Z) empty_multihash.

(** The store after [put] of that payload and link into the empty store,
    and the node [put] returned. *)
Definition put_abc : Result DAGNode.t * Store :=
  object.put (PutObject abc [link_a]) no_options empty_store.
Definition store_abc : Store := snd put_abc.
Definition node_abc : DAGNode.t :=
  DAGNode.mk abc [link_a] (multihashing (pb_encode abc [link_a])).

(** The same store after the bytes kept under the identifier of
    [node_abc] were overwritten, behind the object store's back, with
    the encoding of another payload. *)
Definition xyz : Buffer := [x78; x79; x7a].
Definition store_altered : Store :=
  {| blocks := <[DAGNode.multihash node_abc := pb_encode xyz [link_a]]> (blocks store_abc);
     writes := writes store_abc |}.

(** Two documents that differ in the spelling of the size property of
    their one link. *)
Definition doc_Size : Buffer :=
  json "{'Data':'abc','Links':[{'Name':'a','Size':0,'Hash':'QmdfTbBqBPQ7VNxZEYEj14VmRuZBkqFbiwReogJgS1zR1n'}]}".
Definition doc_size : Buffer :=
  json "{'Data':'abc','Links':[{'Name':'a','size':0,'Hash':'QmdfTbBqBPQ7VNxZEYEj14VmRuZBkqFbiwReogJgS1zR1n'}]}".

(** Two documents that differ in the spelling of the name property of
    their one link, whose name is the empty string. *)
Definition doc_Name : Buffer :=
  json "{'Data':'abc','Links':[{'Name':'','Size':10,'Hash':'QmdfTbBqBPQ7VNxZEYEj14VmRuZBkqFbiwReogJgS1zR1n'}]}".
Definition doc_name : Buffer :=
  json "{'Data':'abc','Links':[{'name':'','Size':10,'Hash':'QmdfTbBqBPQ7VNxZEYEj14VmRuZBkqFbiwReogJgS1zR1n'}]}".
End Inputs.

(** ** More concrete inputs *)

Module MoreInputs.
Import Sample Inputs.

(** The identifier of [node_abc], as bytes and in base 58. *)
Definition id_abc : Buffer := DAGNode.multihash node_abc.
Definition id_abc_b58 : string := toB58String id_abc.

(** An identifier under which [store_abc] holds nothing. *)
Definition id_absent : Buffer := multihashing [x7a].

(** What [stat] reports for [node_abc]. *)
Definition stat_abc : Stat :=
  {| stat_Hash := id_abc_b58; NumLinks := 1; BlockSize := 16; LinksSize := 13;
     DataSize := 3; CumulativeSize := Some 26%Z |}.

(** [node_abc] with its payload replaced, and the store after the
    [patch.setData] that makes it. *)
Definition node_xyz : DAGNode.t :=
  DAGNode.mk xyz [link_a] (multihashing (pb_encode xyz [link_a])).
Definition store_xyz : Store :=
  snd (object.patch.setData (MhBuffer id_abc) xyz no_options store_abc).

(** The node of the raw payload [abc] without links. *)
Definition node_raw : DAGNode.t := DAGNode.mk abc [] (multihashing (pb_encode abc [])).

(** The target of the link in the documents of [Inputs], and those
    documents parsed. *)
Definition target_b58 : string := "QmdfTbBqBPQ7VNxZEYEj14VmRuZBkqFbiwReogJgS1zR1n".
Definition target : Buffer := default [] (b58_decode target_b58).
Definition parsed_size : JSONDoc :=
  {| Data := Some "abc";
     Links := Some [ {| Name := Some "a"; name := None; Size := None; size := Some 10%Z;
                        Hash := Some target_b58; hash := None; multihash := None |} ] |}.

(** A link entry whose hash holds characters outside the base-58
    alphabet, and a document with it. *)
Definition entry_bad : JSONLink :=
  {| Name := Some "a"; name := None; Size := Some 1%Z; size := None;
     Hash := Some "0OIl"; hash := None; multihash := None |}.
Definition parsed_bad : JSONDoc :=
  {| Data := Some "abc"; Links := Some [entry_bad] |}.

(** A link entry with an empty [Hash] and a [hash]. *)
Definition entry_hash : JSONLink :=
  {| Name := None; name := None; Size := None; size := None;
     Hash := Some ""; hash := Some target_b58; multihash := None |}.

(** A CID object whose multihash is no multihash. *)
Definition cid_odd : CID := {| cid_multihash := [x01] |}.

(** A stand-in for [path.join]: the two paths with a slash between. *)
Definition join (a b : string) : string := String.append a (String.append "/" b).
End MoreInputs.

(** ** Quantities the statements below speak of *)

(** The sum of the sizes the links declare. *)
Definition declared_sizes_sum (links : list DAGLink.t) : Z :=
  foldr (fun l acc => default 0 (DAGLink.size l) + acc)%Z 0%Z links.

(** From [s] to [s'] one block was written and nothing else happened
    to the store. *)
Definition wrote_one_block (s s' : Store) : Prop :=
  exists k v,
    blocks s' = <[k := v]> (blocks s) /\ writes s' = writes s ++ [(k, v)].

(** The multihash a node carries is the hash of its own encoding. *)
Definition carries_own_hash `{Externals} (node : DAGNode.t) : Prop :=
  DAGNode.multihash node
  = multihashing (pb_encode (DAGNode.data node) (DAGNode.links node)).

(** The encoding of a node decodes to its payload and links. *)
Definition decodes_back `{Externals} (node : DAGNode.t) : Prop :=
  pb_decode (pb_encode (DAGNode.data node) (DAGNode.links node))
  = Ok (DAGNode.data node, DAGNode.links node).

(** A string cut behind the last occurrence of [c]: the part up to and
    with it, and the part after it; [None] when [c] does not occur. *)
Fixpoint split_last (c : ascii) (s : string) : option (string * string) :=
  match s with
  | EmptyString => None
  | String c' s' =>
      match split_last c s' with
      | Some (front, rest) => Some (String c' front, rest)
      | None => if Ascii.eqb c c' then Some (String c' EmptyString, s') else None
      end
  end.

(** Every link declares a size. *)
Definition sizes_declared (links : list DAGLink.t) : Prop :=
  Forall (fun l => is_Some (DAGLink.size l)) links.

(** * Properties *)

Section Properties.
Context `{Externals}.

Lemma bindR_Ok {A B} (r : Result A) (k : A -> Result B) b :
  bindR r k = Ok b -> exists a, r = Ok a /\ k a = Ok b.
Proof. destruct r as [a|e]; simpl; [eauto | discriminate]. Qed.

(** [new CID(buffer)] keeps the bytes it is given. *)
Lemma new_CID_buffer b cid :
  new_CID (inr b) = Ok cid -> cid = {| cid_multihash := b |} /\ mh_validate b = true.
Proof.
  unfold new_CID; simpl. destruct (mh_validate b); [|discriminate].
  intros [= <-]. auto.
Qed.

Lemma new_CID_valid b :
  mh_validate b = true -> new_CID (inr b) = Ok {| cid_multihash := b |}.
Proof. unfold new_CID; simpl. now intros ->. Qed.

(** What the resolver's [put] leaves behind. *)
Lemma resolver_put_spec node cid s :
  ipldResolver.put node cid s =
    (Ok tt,
     {| blocks := <[cid_multihash cid := pb_encode (DAGNode.data node) (DAGNode.links node)]> (blocks s);
        writes := writes s ++ [(cid_multihash cid, pb_encode (DAGNode.data node) (DAGNode.links node))] |}).
Proof. reflexivity. Qed.

(** [get] on a buffer that is a valid multihash reads the block store
    at that key, compares the hash of the bytes with the key, and
    decodes. *)
Lemma get_buffer b options s :
  mh_validate b = true ->
  object.get (MhBuffer b) options s =
    match blocks s !! b with
    | Some bytes =>
        if decide (multihashing bytes = b) then dagPB.deserialize bytes
        else Fail (LibError VerificationFailed)
    | None => Fail (LibError NotFound)
    end.
Proof.
  intros Hv. unfold object.get; simpl. rewrite (new_CID_valid _ Hv); simpl.
  unfold ipldResolver.get, blockService.get; simpl.
  now destruct (blocks s !! b).
Qed.

(** The identifier under which [get] looks does not depend on the
    store. *)
Lemma get_key multihash options s node :
  object.get multihash options s = Ok node ->
  exists cid, (forall s', object.get multihash options s' = ipldResolver.get cid s')
              /\ ipldResolver.get cid s = Ok node.
Proof.
  unfold object.get. intros Hg.
  destruct (normalizeMultihash multihash (enc options)) as [mh|]; [|discriminate].
  simpl in *. destruct (new_CID mh) as [cid|]; [|discriminate].
  simpl in *. exists cid. split; [reflexivity | exact Hg].
Qed.

Lemma linkLength_declared links a :
  sizes_declared links ->
  fold_left (fun a l => js_add a (DAGLink.size l)) links (Some a)
  = Some (a + declared_sizes_sum links)%Z.
Proof.
  intros Hd. revert a. induction Hd as [|l links [z Hz] _ IH]; intros a; simpl.
  - f_equal. lia.
  - rewrite Hz. simpl. rewrite IH. f_equal. lia.
Qed.
Lemma no_link_named name links :
  Forall (fun l => DAGLink._name l <> name) links ->
  existsb (DAGNode.named name) links = false.
Proof.
  induction 1 as [|l links Hl _ IH]; simpl; [reflexivity|].
  rewrite IH. unfold DAGNode.named. now rewrite bool_decide_eq_false_2.
Qed.

(** [stat] on a node that [get] returns. *)
Lemma stat_of_get multihash options s node :
  object.get multihash options s = Ok node ->
  object.stat multihash options s =
    Ok {| stat_Hash := toB58String (DAGNode.multihash node);
          NumLinks := Z.of_nat (length (DAGNode.links node));
          BlockSize := Z.of_nat (length (pb_encode (DAGNode.data node) (DAGNode.links node)));
          LinksSize := Z.of_nat (length (pb_encode (DAGNode.data node) (DAGNode.links node)))
                       - Z.of_nat (length (DAGNode.data node));
          DataSize := Z.of_nat (length (DAGNode.data node));
          CumulativeSize :=
            js_add (Some (Z.of_nat (length (pb_encode (DAGNode.data node) (DAGNode.links node)))))
                   (object.linkLength node) |}.
Proof. intros Hget. unfold object.stat. now rewrite Hget. Qed.

(** A patch that fetches [node] and whose edit yields [node'] with a
    valid multihash writes the block of [node'] and returns it. *)
Lemma editAndSave_ok edit multihash options s node node' :
  object.get multihash options s = Ok node ->
  edit node = Ok node' ->
  mh_validate (DAGNode.multihash node') = true ->
  object.editAndSave edit multihash options s =
    (Ok node',
     {| blocks := <[DAGNode.multihash node' :=
                     pb_encode (DAGNode.data node') (DAGNode.links node')]> (blocks s);
        writes := writes s ++ [(DAGNode.multihash node',
                                pb_encode (DAGNode.data node') (DAGNode.links node'))] |}).
Proof.
  intros Hget Hedit Hv. unfold object.editAndSave.
  rewrite Hget, Hedit, (new_CID_valid _ Hv). now rewrite resolver_put_spec.
Qed.

(** Reading back, by its multihash, a node whose block was just written
    and whose encoding decodes to it. *)
Lemma get_after_write node bs ws options :
  mh_validate (DAGNode.multihash node) = true ->
  DAGNode.multihash node = multihashing (pb_encode (DAGNode.data node) (DAGNode.links node)) ->
  pb_decode (pb_encode (DAGNode.data node) (DAGNode.links node))
    = Ok (DAGNode.data node, DAGNode.links node) ->
  object.get (MhBuffer (DAGNode.multihash node)) options
    {| blocks := <[DAGNode.multihash node :=
                    pb_encode (DAGNode.data node) (DAGNode.links node)]> bs;
       writes := ws |} = Ok node.
Proof.
  intros Hv Hmh Hrt. rewrite (get_buffer _ _ _ Hv). simpl.
  rewrite lookup_insert_eq.
  destruct (decide _) as [_|Hne]; [|now rewrite Hmh in Hne].
  unfold dagPB.deserialize. rewrite Hrt. simpl.
  unfold DAGNode.create. rewrite <- Hmh. now destruct node.
Qed.


(** C3: for a node stored under an identifier, all of whose links declare
    a size, [stat] reports the six fields: the identifier in base 58, the
    number of links, the length of the node's serialized form, that
    length minus the payload length, the payload length, and that length
    plus the sum of the sizes the links declare. *)
Theorem stat_fields multihash options s node :
  object.get multihash options s = Ok node ->
  sizes_declared (DAGNode.links node) ->
  object.stat multihash options s =
    Ok {| stat_Hash := toB58String (DAGNode.multihash node);
          NumLinks := Z.of_nat (length (DAGNode.links node));
          BlockSize := Z.of_nat (length (pb_encode (DAGNode.data node) (DAGNode.links node)));
          LinksSize := Z.of_nat (length (pb_encode (DAGNode.data node) (DAGNode.links node)))
                       - Z.of_nat (length (DAGNode.data node));
          DataSize := Z.of_nat (length (DAGNode.data node));
          CumulativeSize :=
            Some (Z.of_nat (length (pb_encode (DAGNode.data node) (DAGNode.links node)))
                  + declared_sizes_sum (DAGNode.links node))%Z |}.
Proof.
  intros Hget Hsizes. unfold object.stat. rewrite Hget. simpl.
  unfold object.linkLength. rewrite (linkLength_declared _ _ Hsizes). simpl.
  reflexivity.
Qed.

(** C4: removing, from a stored node, a link name that no link of the
    node carries fails with [LinkNotFound] and returns the store as it
    was: no block is written. *)
Theorem rmLink_missing_name multihash name options s node :
  object.get multihash options s = Ok node ->
  Forall (fun l => DAGLink._name l <> Some name) (DAGNode.links node) ->
  object.patch.rmLink multihash (RefName name) options s
  = (Fail (LibError LinkNotFound), s).
Proof.
  intros Hget Hnone. unfold object.patch.rmLink, object.editAndSave.
  rewrite Hget. unfold DAGNode.rmLink. now rewrite (no_link_named _ _ Hnone).
Qed.

(** C9: [new] builds the node with empty payload and no links, whose
    multihash is the hash of the encoding of that empty node, issues
    exactly one block write (those bytes under that multihash) and
    returns the node. *)
Theorem new_persists_empty_node s :
  mh_validate (multihashing (pb_encode [] [])) = true ->
  exists node s',
    object.new s = (Ok node, s')
    /\ DAGNode.data node = [] /\ DAGNode.links node = []
    /\ DAGNode.multihash node = multihashing (pb_encode [] [])
    /\ writes s' = writes s ++ [(DAGNode.multihash node, pb_encode [] [])]
    /\ blocks s' = <[DAGNode.multihash node := pb_encode [] []]> (blocks s).
Proof.
  intros Hv. unfold object.new, DAGNode.create. cbn [DAGNode.multihash].
  rewrite (new_CID_valid _ Hv). rewrite resolver_put_spec. simpl.
  eexists _, _. repeat split.
Qed.

(** C10: handing [patch.rmLink] a link value whose name is a string is
    handing it that string: the size and the target of the link value
    play no part, and the two calls end in the same result and the same
    store. *)
Theorem rmLink_link_is_its_name multihash l name options s :
  DAGLink._name l = Some name ->
  object.patch.rmLink multihash (RefLink l) options s
  = object.patch.rmLink multihash (RefName name) options s.
Proof.
  intros Hname. unfold object.patch.rmLink.
  f_equal. now rewrite Hname.
Qed.

(** The spellings of a link property, one at a time.  [hash] for [Hash]
    makes no difference whatever the value. *)
Lemma link_hash_spelling v :
  link_hash {| Name := None; name := None; Size := None; size := None;
               Hash := None; hash := v; multihash := None |}
  = link_hash {| Name := None; name := None; Size := None; size := None;
                 Hash := v; hash := None; multihash := None |}.
Proof.
  unfold link_hash, or_string; simpl.
  destruct v as [str|]; [|reflexivity].
  destruct (decide (str = "")) as [Hempty|Hfull]; [reflexivity|].
  now destruct (decide (str = "")).
Qed.

(** [size] for [Size] makes no difference when the size is not 0. *)
Lemma link_size_spelling z :
  z <> 0%Z ->
  link_size {| Name := None; name := None; Size := None; size := Some z;
               Hash := None; hash := None; multihash := None |}
  = link_size {| Name := None; name := None; Size := Some z; size := None;
                 Hash := None; hash := None; multihash := None |}.
Proof.
  intros Hz. unfold link_size, or_number; simpl. now destruct (decide (z = 0%Z)).
Qed.

(** [name] for [Name] makes no difference when the name is not empty. *)
Lemma link_name_spelling str :
  str <> "" ->
  link_name {| Name := None; name := Some str; Size := None; size := None;
               Hash := None; hash := None; multihash := None |}
  = link_name {| Name := Some str; name := None; Size := None; size := None;
                 Hash := None; hash := None; multihash := None |}.
Proof.
  intros Hs. unfold link_name, or_string; simpl. now destruct (decide (str = "")).
Qed.

(** C5: [patch.appendData] on a stored node yields a node whose payload
    is the old payload followed by the given bytes and whose links are
    the old links.  When the new node's encoding decodes to it, [stat]
    at the new identifier reports the sum of the two lengths as its data
    size; for a 3-byte payload, one link declaring size 10 and 2 more
    bytes that is 5, and the cumulative size is the block size plus
    10. *)
Theorem appendData_concat multihash bytes options s node :
  object.get multihash options s = Ok node ->
  mh_validate (multihashing (pb_encode (DAGNode.data node ++ bytes) (DAGNode.links node))) = true ->
  exists node' s',
    object.patch.appendData multihash bytes options s = (Ok node', s')
    /\ DAGNode.data node' = DAGNode.data node ++ bytes
    /\ DAGNode.links node' = DAGNode.links node
    /\ (pb_decode (pb_encode (DAGNode.data node') (DAGNode.links node'))
          = Ok (DAGNode.data node', DAGNode.links node') ->
        exists st,
          object.stat (MhBuffer (DAGNode.multihash node')) no_options s' = Ok st
          /\ DataSize st = (Z.of_nat (length (DAGNode.data node)) + Z.of_nat (length bytes))%Z
          /\ (length (DAGNode.data node) = 3%nat -> length bytes = 2%nat ->
              forall l, DAGNode.links node = [l] -> DAGLink.size l = Some 10%Z ->
              DataSize st = 5%Z
              /\ CumulativeSize st = Some (BlockSize st + 10)%Z)).
Proof.
  intros Hget Hv.
  set (node' := DAGNode.mk (DAGNode.data node ++ bytes) (DAGNode.links node)
                  (multihashing (pb_encode (DAGNode.data node ++ bytes) (DAGNode.links node)))).
  eexists node', _. split.
  { unfold object.patch.appendData.
    apply (editAndSave_ok _ _ _ _ node node'); [exact Hget | reflexivity | exact Hv]. }
  split; [reflexivity|]. split; [reflexivity|].
  intros Hrt. eexists. split.
  { apply stat_of_get. apply get_after_write; [exact Hv | reflexivity | exact Hrt]. }
  cbn [DataSize CumulativeSize BlockSize]. subst node'. cbn [DAGNode.data DAGNode.links].
  split; [rewrite length_app; lia|].
  intros H3 H2 l Hl Hsize. split; [rewrite length_app; lia|].
  unfold object.linkLength. cbn [DAGNode.links]. rewrite Hl. simpl. rewrite Hsize. simpl.
  f_equal.
Qed.

(** C7: for a node stored under an identifier and any bytes, where the
    hash of the edited node is a valid multihash and the edited node's
    encoding decodes to it, running [patch.setData] on that identifier
    with those bytes, and then once more, succeeds both times with nodes
    of one and the same identifier. *)
Theorem setData_twice_same_identifier multihash data options s n :
  object.get multihash options s = Ok n ->
  mh_validate (multihashing (pb_encode data (DAGNode.links n))) = true ->
  pb_decode (pb_encode data (DAGNode.links n)) = Ok (data, DAGNode.links n) ->
  exists n1 s1 n2 s2,
    object.patch.setData multihash data options s = (Ok n1, s1)
    /\ object.patch.setData multihash data options s1 = (Ok n2, s2)
    /\ DAGNode.multihash n2 = DAGNode.multihash n1.
Proof.
  unfold object.patch.setData. intros Hget Hv Hrt.
  set (mh1 := multihashing (pb_encode data (DAGNode.links n))) in *.
  set (n1 := DAGNode.mk data (DAGNode.links n) mh1).
  assert (Hfirst := editAndSave_ok
            (fun node => DAGNode.create data (DAGNode.links node))
            multihash options s n n1 Hget eq_refl Hv).
  cbn [DAGNode.data DAGNode.links DAGNode.multihash n1] in Hfirst.
  set (s1 := {| blocks := _; writes := _ |}) in Hfirst.
  destruct (get_key _ _ _ _ Hget) as (cid & Hkey & Hres).
  assert (Hget1 : exists n', object.get multihash options s1 = Ok n'
                             /\ DAGNode.links n' = DAGNode.links n).
  { rewrite Hkey. unfold ipldResolver.get, blockService.get in *. subst s1. simpl in *.
    destruct (decide (mh1 = cid_multihash cid)) as [Heq|Hne].
    - rewrite <- Heq, lookup_insert_eq. simpl.
      destruct (decide _) as [_|Hne]; [|now destruct Hne].
      unfold dagPB.deserialize.
      rewrite Hrt. simpl. eexists. split; reflexivity.
    - rewrite lookup_insert_ne by exact Hne. exists n. split; [exact Hres | reflexivity]. }
  destruct Hget1 as (n' & Hget' & Hlinks).
  exists n1, s1, n1. eexists. split; [exact Hfirst|]. split; [|reflexivity].
  apply (editAndSave_ok _ _ _ _ n' n1); [exact Hget' | | exact Hv].
  unfold DAGNode.create. now rewrite Hlinks.
Qed.

(** C1: under an identifier whose stored bytes were altered so that
    they no longer hash to it, [get] fails with [VerificationFailed]; it
    returns no node, whatever the altered bytes decode to. *)
Theorem get_altered_block_fails_verification multihash options s mh cid bytes :
  normalizeMultihash multihash (enc options) = Ok mh ->
  new_CID mh = Ok cid ->
  blocks s !! cid_multihash cid = Some bytes ->
  multihashing bytes <> cid_multihash cid ->
  object.get multihash options s = Fail (LibError VerificationFailed)
  /\ forall node, object.get multihash options s <> Ok node.
Proof.
  intros Hmh Hcid Hstored Haltered.
  assert (Hget : object.get multihash options s = Fail (LibError VerificationFailed)).
  { unfold object.get. rewrite Hmh. simpl. rewrite Hcid. simpl.
    unfold ipldResolver.get, blockService.get. rewrite Hstored. simpl.
    destruct (decide (multihashing bytes = cid_multihash cid)) as [Heq|_];
      [contradiction | reflexivity]. }
  split; [exact Hget|]. intros node. rewrite Hget. discriminate.
Qed.

End Properties.

(** * Further properties of object.js *)

Section ObjectProperties.
Context `{Externals}.

(** X1: a string identifier is expanded to bytes before it is looked up: by
    base 58 when [enc] is 'base58', by [new Buffer(str, enc)] otherwise;
    [get] on the string is [get] on those bytes, whose own options play
    no part. *)
Theorem get_string_is_get_bytes str options b options' s :
  (if decide (enc options = Some "base58") then fromB58String (Some str)
   else Buffer_from str (enc options)) = Ok b ->
  object.get (MhString str) options s = object.get (MhBuffer b) options' s.
Proof.
  unfold object.get, normalizeMultihash. intros Hb.
  destruct (decide (enc options = Some "base58")); simpl.
  - unfold new_CID. now rewrite Hb.
  - now rewrite Hb.
Qed.

(** X2: when [get] fails, so do [data], [links], [stat] and the four patch
    operations, with the error of [get]; the patch operations leave the
    store as it was. *)
Theorem get_failure_is_handed_on multihash options s err :
  object.get multihash options s = Fail err ->
  object.data multihash options s = Fail err
  /\ object.links multihash options s = Fail err
  /\ object.stat multihash options s = Fail err
  /\ (forall link, object.patch.addLink multihash link options s = (Fail err, s))
  /\ (forall linkRef, object.patch.rmLink multihash linkRef options s = (Fail err, s))
  /\ (forall bytes, object.patch.appendData multihash bytes options s = (Fail err, s))
  /\ (forall bytes, object.patch.setData multihash bytes options s = (Fail err, s)).
Proof.
  intros Hget.
  unfold object.data, object.links, object.stat, object.patch.addLink,
    object.patch.rmLink, object.patch.appendData, object.patch.setData,
    object.editAndSave.
  rewrite Hget. simpl. repeat split.
Qed.

(** X3: a patch that fails, whatever its edit and for whatever reason, has
    written nothing. *)
Theorem failed_patch_writes_nothing edit multihash options s err s' :
  object.editAndSave edit multihash options s = (Fail err, s') -> s' = s.
Proof.
  unfold object.editAndSave.
  destruct (object.get multihash options s) as [node|]; [|now intros [= _ <-]].
  destruct (edit node) as [node'|]; [|now intros [= _ <-]].
  destruct (new_CID (inr (DAGNode.multihash node'))) as [cid|]; [|now intros [= _ <-]].
  rewrite resolver_put_spec. discriminate.
Qed.

(** One undeclared size makes the sum of [stat] NaN, and only that. *)
Lemma linkLength_NaN links a :
  fold_left (fun a l => js_add a (DAGLink.size l)) links (Some a) = None
  <-> ~ sizes_declared links.
Proof.
  revert a. induction links as [|l links IH]; intros a; simpl.
  - split; [discriminate|]. intros Hn. destruct Hn. constructor.
  - destruct (DAGLink.size l) as [z|] eqn:Hz; simpl.
    + rewrite IH. split; intros Hn Hd.
      * inversion Hd; subst. auto.
      * apply Hn. constructor; [rewrite Hz; eauto | exact Hd].
    + split; [|intros _].
      * intros _ Hd. inversion Hd as [|? ? [z Hz'] _]; subst. congruence.
      * clear IH. induction links as [|l' links IH']; simpl; [reflexivity | exact IH'].
Qed.

(** X4: whatever [stat] reports, the links size and the data size add up to
    the block size, no count is negative, and the cumulative size is NaN
    exactly when the node fetched has a link without a size. *)
Theorem stat_sizes_add_up multihash options s st :
  object.stat multihash options s = Ok st ->
  (LinksSize st + DataSize st = BlockSize st)%Z
  /\ (0 <= NumLinks st)%Z /\ (0 <= DataSize st)%Z /\ (0 <= BlockSize st)%Z
  /\ exists node,
       object.get multihash options s = Ok node
       /\ (CumulativeSize st = None <-> ~ sizes_declared (DAGNode.links node)).
Proof.
  intros Hstat.
  destruct (object.get multihash options s) as [node|err] eqn:Hget;
    [|unfold object.stat in Hstat; rewrite Hget in Hstat; discriminate].
  rewrite (stat_of_get _ _ _ _ Hget) in Hstat. injection Hstat as <-.
  cbn [LinksSize DataSize BlockSize NumLinks CumulativeSize].
  repeat split; try lia.
  exists node. split; [reflexivity|].
  unfold object.linkLength.
  destruct (fold_left _ _ _) as [z|] eqn:Hsum; simpl.
  - split; [discriminate|]. intros Hn.
    apply (proj2 (linkLength_NaN _ 0%Z)) in Hn. congruence.
  - split; [|reflexivity]. intros _. exact (proj1 (linkLength_NaN _ 0%Z) Hsum).
Qed.

(** What [put] and [new] leave behind when they succeed. *)
Lemma put_next_ok node s r s' :
  object.put_next node s = (Ok r, s') ->
  mh_validate (DAGNode.multihash node) = true
  /\ s' = {| blocks := <[DAGNode.multihash node :=
                          pb_encode (DAGNode.data node) (DAGNode.links node)]> (blocks s);
             writes := writes s ++ [(DAGNode.multihash node,
                                     pb_encode (DAGNode.data node) (DAGNode.links node))] |}
  /\ dagPB.deserialize (pb_encode (DAGNode.data node) (DAGNode.links node)) = Ok r
  /\ carries_own_hash node.
Proof.
  unfold object.put_next. intros Hnext.
  destruct (new_CID (inr (DAGNode.multihash node))) as [cid|] eqn:Hcid; [|discriminate].
  apply new_CID_buffer in Hcid as [-> Hv].
  rewrite resolver_put_spec in Hnext. injection Hnext as Hget <-.
  rewrite (get_buffer _ _ _ Hv) in Hget. simpl in Hget.
  rewrite lookup_insert_eq in Hget.
  destruct (decide _) as [Hown|_] in Hget; [|discriminate].
  unfold carries_own_hash. auto.
Qed.

(** X5: putting again what was put is harmless: the second [put] succeeds
    with the same node and the blocks held are the same as after the
    first; only the trace of writes grows.  The same holds for [new]. *)
Theorem put_again_changes_no_block obj options s r s1 :
  object.put obj options s = (Ok r, s1) ->
  exists s2,
    object.put obj options s1 = (Ok r, s2)
    /\ blocks s2 = blocks s1
    /\ length (writes s2) = S (length (writes s1)).
Proof.
  unfold object.put. intros Hput.
  destruct (object.put_node obj (enc options)) as [node|]; [|discriminate].
  destruct (put_next_ok _ _ _ _ Hput) as (Hv & -> & Hdec & Hown).
  unfold object.put_next. rewrite (new_CID_valid _ Hv), resolver_put_spec.
  cbn [blocks writes cid_multihash].
  eexists. split; [|split].
  - f_equal. rewrite (get_buffer _ _ _ Hv). cbn [blocks].
    rewrite lookup_insert_eq.
    destruct (decide _) as [_|Hne]; [exact Hdec | now rewrite Hown in Hne].
  - cbn [blocks]. apply insert_insert_eq.
  - cbn [writes]. rewrite !length_app. simpl. lia.
Qed.
(** What a successful patch went through. *)
Lemma editAndSave_inv edit multihash options s node' s' :
  object.editAndSave edit multihash options s = (Ok node', s') ->
  exists node,
    object.get multihash options s = Ok node
    /\ edit node = Ok node'
    /\ mh_validate (DAGNode.multihash node') = true
    /\ s' = {| blocks := <[DAGNode.multihash node' :=
                            pb_encode (DAGNode.data node') (DAGNode.links node')]> (blocks s);
               writes := writes s ++ [(DAGNode.multihash node',
                                       pb_encode (DAGNode.data node') (DAGNode.links node'))] |}.
Proof.
  unfold object.editAndSave. intros He.
  destruct (object.get multihash options s) as [node|]; [|discriminate].
  destruct (edit node) as [n'|] eqn:Hedit; [|discriminate].
  destruct (new_CID (inr (DAGNode.multihash n'))) as [cid|] eqn:Hcid; [|discriminate].
  apply new_CID_buffer in Hcid as [-> Hv].
  rewrite resolver_put_spec in He. injection He as <- <-.
  exists node. auto.
Qed.

(** X6: [new], [put] and every patch write at most one block and delete
    none: the store they leave is the store they found, or that store
    with one block written. *)
Theorem operations_write_at_most_one_block s :
  (forall r s', object.new s = (r, s') -> s' = s \/ wrote_one_block s s')
  /\ (forall obj options r s',
        object.put obj options s = (r, s') -> s' = s \/ wrote_one_block s s')
  /\ (forall edit multihash options r s',
        object.editAndSave edit multihash options s = (r, s') ->
        s' = s \/ wrote_one_block s s').
Proof.
  assert (Hput : forall node cid,
            wrote_one_block s (snd (ipldResolver.put node cid s))).
  { intros node cid. rewrite resolver_put_spec. eexists _, _. split; reflexivity. }
  split; [|split].
  - intros r s'. unfold object.new, DAGNode.create.
    destruct (new_CID _) as [cid|]; [|intros [= _ <-]; now left].
    specialize (Hput (DAGNode.mk [] [] (multihashing (pb_encode [] []))) cid).
    destruct (ipldResolver.put _ cid s) as [[?|?] s'']; intros [= _ <-]; now right.
  - intros obj options r s'. unfold object.put.
    destruct (object.put_node obj (enc options)) as [node|]; [|intros [= _ <-]; now left].
    unfold object.put_next.
    destruct (new_CID _) as [cid|]; [|intros [= _ <-]; now left].
    specialize (Hput node cid).
    destruct (ipldResolver.put node cid s) as [[?|?] s'']; intros [= _ <-]; now right.
  - intros edit multihash options r s'. unfold object.editAndSave.
    destruct (object.get multihash options s) as [node|]; [|intros [= _ <-]; now left].
    destruct (edit node) as [node'|]; [|intros [= _ <-]; now left].
    destruct (new_CID _) as [cid|]; [|intros [= _ <-]; now left].
    specialize (Hput node' cid).
    destruct (ipldResolver.put node' cid s) as [[?|?] s'']; intros [= _ <-]; now right.
Qed.

(** X7: a successful patch changes what [get] answers under no identifier
    but the one of the node it made: the node patched, and every other
    node, is fetched as before. *)
Theorem patch_leaves_other_identifiers edit multihash options s node' s' b options' :
  object.editAndSave edit multihash options s = (Ok node', s') ->
  b <> DAGNode.multihash node' ->
  object.get (MhBuffer b) options' s' = object.get (MhBuffer b) options' s.
Proof.
  intros Hrun Hne. apply editAndSave_inv in Hrun as (node & _ & _ & _ & ->).
  unfold object.get; simpl.
  destruct (new_CID (inr b)) as [cid|] eqn:Hcid; [|reflexivity].
  apply new_CID_buffer in Hcid as [-> _]. simpl.
  unfold ipldResolver.get, blockService.get; simpl.
  rewrite lookup_insert_ne by congruence. reflexivity.
Qed.

Lemma create_carries_own_hash data links node :
  DAGNode.create data links = Ok node -> carries_own_hash node.
Proof. unfold DAGNode.create. intros [= <-]. reflexivity. Qed.

(** X8: the node any of the four patch operations returns can be fetched
    under the multihash it carries, from the store the operation leaves,
    when its encoding decodes back. *)
Theorem patched_node_can_be_fetched multihash options s node' s' options' :
  (exists link, object.patch.addLink multihash link options s = (Ok node', s'))
  \/ (exists linkRef, object.patch.rmLink multihash linkRef options s = (Ok node', s'))
  \/ (exists bytes, object.patch.appendData multihash bytes options s = (Ok node', s'))
  \/ (exists bytes, object.patch.setData multihash bytes options s = (Ok node', s')) ->
  decodes_back node' ->
  object.get (MhBuffer (DAGNode.multihash node')) options' s' = Ok node'.
Proof.
  intros Hrun Hback.
  assert (Hinv : exists node edit,
            object.editAndSave edit multihash options s = (Ok node', s')
            /\ edit node = Ok node' /\ carries_own_hash node').
  { destruct Hrun as [[link Hr]|[[linkRef Hr]|[[bytes Hr]|[bytes Hr]]]];
      pose proof Hr as Hr';
      apply editAndSave_inv in Hr' as (node & _ & Hedit & _ & _);
      eexists node, _; (split; [exact Hr|]); (split; [exact Hedit|]).
    - eapply create_carries_own_hash. exact Hedit.
    - unfold DAGNode.rmLink in Hedit.
      destruct (existsb _ _); [|discriminate].
      eapply create_carries_own_hash. exact Hedit.
    - eapply create_carries_own_hash. exact Hedit.
    - eapply create_carries_own_hash. exact Hedit. }
  destruct Hinv as (node & edit & Hr & _ & Hown).
  apply editAndSave_inv in Hr as (_ & _ & _ & Hv & ->).
  now apply get_after_write.
Qed.

(** X9: appending in two steps is appending once: [appendData] of [b1] on a
    stored node, then of [b2] on the node that made, ends in the node
    that [appendData] of [b1 ++ b2] on the first node makes. *)
Theorem appendData_in_two_steps multihash b1 b2 options options' s node :
  object.get multihash options s = Ok node ->
  let n1 := DAGNode.mk (DAGNode.data node ++ b1) (DAGNode.links node)
              (multihashing (pb_encode (DAGNode.data node ++ b1) (DAGNode.links node))) in
  mh_validate (DAGNode.multihash n1) = true ->
  mh_validate (multihashing (pb_encode (DAGNode.data node ++ b1 ++ b2) (DAGNode.links node)))
    = true ->
  decodes_back n1 ->
  exists s1 n2 s2 s12,
    object.patch.appendData multihash b1 options s = (Ok n1, s1)
    /\ object.patch.appendData (MhBuffer (DAGNode.multihash n1)) b2 options' s1 = (Ok n2, s2)
    /\ object.patch.appendData multihash (b1 ++ b2) options s = (Ok n2, s12)
    /\ DAGNode.data n2 = DAGNode.data node ++ b1 ++ b2.
Proof.
  intros Hget n1 Hv1 Hv2 Hback.
  set (n2 := DAGNode.mk (DAGNode.data node ++ b1 ++ b2) (DAGNode.links node)
               (multihashing (pb_encode (DAGNode.data node ++ b1 ++ b2) (DAGNode.links node)))).
  unfold object.patch.appendData.
  eexists _, n2, _, _. split; [|split; [|split]].
  - apply (editAndSave_ok _ _ _ _ node n1); [exact Hget | reflexivity | exact Hv1].
  - apply (editAndSave_ok _ _ _ _ n1 n2).
    + apply get_after_write; [exact Hv1 | reflexivity | exact Hback].
    + unfold DAGNode.create, n1, n2. cbn [DAGNode.data DAGNode.links].
      now rewrite <- app_assoc.
    + exact Hv2.
  - apply (editAndSave_ok _ _ _ _ node n2); [exact Hget | reflexivity | exact Hv2].
  - reflexivity.
Qed.

(** X10: [put] of a buffer succeeds only without an encoding (none, or the
    empty name) or with 'json' or 'protobuf'. *)
Theorem put_buffer_accepted_encodings buf options s r s' :
  object.put (PutBuffer buf) options s = (Ok r, s') ->
  truthy (enc options) = false
  \/ enc options = Some "json" \/ enc options = Some "protobuf".
Proof.
  unfold object.put, object.put_node, parseBuffer.
  destruct (truthy (enc options)); [|now left].
  destruct (decide (enc options = Some "json")); [now right; left|].
  destruct (decide (enc options = Some "protobuf")); [now right; right|].
  discriminate.
Qed.

(** X11: a failure of the JSON reading -- of [JSON.parse], of a link's hash,
    of the payload -- reaches the caller wrapped as 'failed to parse
    JSON', whereas a failure of the binary decoder reaches the caller as
    it is; so every failure under 'json' carries the label
    [MalformedDocument]. *)
Theorem parse_failures_tell_the_format buf :
  (forall err, JSON_parse buf = Fail err ->
     parseBuffer buf (Some "json") = Fail (Error_failed_to_parse_JSON err))
  /\ (forall parsed err, JSON_parse buf = Ok parsed -> parseJSONDoc parsed = Fail err ->
        parseBuffer buf (Some "json") = Fail (Error_failed_to_parse_JSON err))
  /\ (forall err, pb_decode buf = Fail err ->
        parseBuffer buf (Some "protobuf") = Fail err)
  /\ (forall err, parseBuffer buf (Some "json") = Fail err ->
        kind err = Some MalformedDocument).
Proof.
  unfold parseBuffer, parseJSONBuffer, parseProtoBuffer, dagPB.deserialize.
  destruct (decide (Some "json" = Some "json")) as [_|Hn]; [|contradiction].
  destruct (decide (Some "protobuf" = Some "json")) as [[=]|_].
  destruct (decide (Some "protobuf" = Some "protobuf")) as [_|Hn]; [|contradiction].
  repeat split.
  - intros err ->. reflexivity.
  - intros parsed err -> Hdoc. simpl. now rewrite Hdoc.
  - intros err ->. reflexivity.
  - intros err. destruct (JSON_parse buf) as [parsed|]; simpl.
    + destruct (parseJSONDoc parsed) as [[data links]|]; [discriminate|].
      now intros [= <-].
    + now intros [= <-].
Qed.

(** A link the constructor builds holds what it was given, and was
    given a size other than 0. *)
Lemma DAGLink_new_Ok name size mh l :
  DAGLink.new name size mh = Ok l ->
  l = DAGLink.mk name size mh /\ exists n, size = Some n /\ n <> 0%Z.
Proof.
  unfold DAGLink.new. destruct size as [n|]; [|discriminate].
  destruct (decide (n = 0%Z)); [discriminate|]. intros [= <-]. eauto.
Qed.

(** X12: a parsed document yields one link per entry of [Links], in the
    order of the entries, each with the name and size computed from the
    entry and the decoded hash as target; the payload is the buffer of
    [Data], which has to be there. *)
Theorem parseJSONDoc_keeps_links parsed data links :
  parseJSONDoc parsed = Ok (data, links) ->
  Forall2 (fun entry l =>
             DAGLink._name l = link_name entry
             /\ DAGLink.size l = link_size entry
             /\ fromB58String (link_hash entry) = Ok (DAGLink.multihash l))
          (default [] (Links parsed)) links
  /\ exists str, Data parsed = Some str /\ Buffer_from str None = Ok data.
Proof.
  unfold parseJSONDoc. intros Hdoc.
  apply bindR_Ok in Hdoc as (ls & Hls & Hdoc).
  apply bindR_Ok in Hdoc as (d & Hd & [= <- <-]).
  split.
  - clear Hd. revert ls Hls.
    induction (default [] (Links parsed)) as [|entry entries IH]; intros ls; simpl.
    + intros [= <-]. constructor.
    + intros Hm. apply bindR_Ok in Hm as (l & Hl & Hm).
      apply bindR_Ok in Hm as (ls' & Hls' & [= <-]).
      constructor; [|now apply IH].
      unfold parseJSONLink in Hl. apply bindR_Ok in Hl as (mh & Hmh & Hnew).
      apply DAGLink_new_Ok in Hnew as [-> _]. simpl. auto.
  - destruct (Data parsed) as [str|]; [|discriminate]. eauto.
Qed.

(** X13: one entry of [Links] whose hash does not decode makes the whole
    document fail: no node is built from the other entries. *)
Theorem parseJSONDoc_bad_link parsed entry err :
  In entry (default [] (Links parsed)) ->
  fromB58String (link_hash entry) = Fail err ->
  exists err', parseJSONDoc parsed = Fail err'.
Proof.
  unfold parseJSONDoc. intros Hin Hbad.
  assert (Hmap : exists err', mapR parseJSONLink (default [] (Links parsed)) = Fail err').
  { induction (default [] (Links parsed)) as [|e es IH]; [contradiction|].
    simpl. destruct (parseJSONLink e) as [l|err0] eqn:Hl; simpl; [|eauto].
    destruct Hin as [->|Hin].
    - unfold parseJSONLink in Hl. rewrite Hbad in Hl. discriminate.
    - destruct (IH Hin) as [err' ->]. simpl. eauto. }
  destruct Hmap as [err' ->]. simpl. eauto.
Qed.

(** X14: the hash of a link is read from [Hash] when that is a non-empty
    string, else from [hash] when that is one, else from [multihash]. *)
Theorem link_hash_precedence entry :
  (truthy (Hash entry) = true -> link_hash entry = Hash entry)
  /\ (truthy (Hash entry) = false -> truthy (hash entry) = true ->
      link_hash entry = hash entry)
  /\ (truthy (Hash entry) = false -> truthy (hash entry) = false ->
      link_hash entry = multihash entry).
Proof.
  unfold link_hash, or_string, truthy.
  destruct (Hash entry) as [h1|]; [destruct (decide (h1 = ""))|];
    (destruct (hash entry) as [h2|]; [destruct (decide (h2 = ""))|]);
    repeat split; intros; try discriminate; try reflexivity;
    repeat case_decide; try reflexivity; try contradiction.
Qed.

End ObjectProperties.

(** * Properties of block.js *)

Section BlockProperties.
Context `{Externals}.

Lemma Block_eta blk : {| Block_data := Block_data blk |} = blk.
Proof. now destruct blk. Qed.

(** X16: [put] refuses an array, and a [put] that fails has written
    nothing. *)
Theorem failed_block_put_writes_nothing s :
  (forall cid, block.put BlockArray cid s = (Refused Error_Array_is_not_supported, s))
  /\ (forall blk cid err s', block.put blk cid s = (Refused err, s') -> s' = s).
Proof.
  split; [reflexivity|].
  intros blk cid err s'. unfold block.put.
  destruct (block.as_Block blk) as [b|]; [|now intros [= _ <-]].
  destruct (match cid with Some c => Ok c | None => _ end) as [c|]; [|now intros [= _ <-]].
  unfold blockService.put. discriminate.
Qed.

(** X17: a block put without an identifier is kept under the hash of its
    bytes: [get] and [stat] under that hash, on the store [put] leaves,
    answer with the block and with the length of its bytes. *)
Theorem block_put_then_get block blk s :
  block.as_Block block = Some blk ->
  mh_validate (multihashing (Block_data blk)) = true ->
  exists s',
    block.put block None s = (Done blk, s')
    /\ wrote_one_block s s'
    /\ block.get (NotCID (inr (multihashing (Block_data blk)))) s' = Ok blk
    /\ block.stat (NotCID (inr (multihashing (Block_data blk)))) s'
       = Ok {| block.key := toB58String (multihashing (Block_data blk));
               block.size := Z.of_nat (length (Block_data blk)) |}.
Proof.
  intros Hblk Hv. unfold block.put, block.get, block.stat, block.cleanCid.
  rewrite Hblk, (new_CID_valid _ Hv). unfold blockService.put, blockService.get.
  eexists. split; [reflexivity|]. cbn [blocks cid_multihash]. split; [|split].
  - eexists _, _. split; reflexivity.
  - simpl. rewrite lookup_insert_eq. simpl. now rewrite Block_eta.
  - simpl. rewrite lookup_insert_eq. reflexivity.
Qed.

(** X18: a block put with an identifier is kept under that identifier as it
    is given: the identifier is neither checked nor compared with the
    hash of the bytes, and [get] under it answers with the block. *)
Theorem block_put_trusts_the_cid block blk cid s :
  block.as_Block block = Some blk ->
  exists s',
    block.put block (Some cid) s = (Done blk, s')
    /\ blocks s' = <[cid_multihash cid := Block_data blk]> (blocks s)
    /\ block.get (IsCID cid) s' = Ok blk.
Proof.
  intros Hblk. unfold block.put, block.get, block.cleanCid.
  rewrite Hblk. unfold blockService.put, blockService.get.
  eexists. split; [reflexivity|]. cbn [blocks]. split; [reflexivity|].
  simpl. rewrite lookup_insert_eq. simpl. now rewrite Block_eta.
Qed.

(** X19: after a successful [rm], [get] of the identifier fails with
    [NotFound]; blocks under other identifiers are fetched as before,
    and the trace of writes is untouched. *)
Theorem block_rm_then_get cid s s' :
  block.rm cid s = (Ok tt, s') ->
  block.get cid s' = Fail (LibError NotFound)
  /\ (forall other c, block.cleanCid cid = Ok c ->
        cid_multihash other <> cid_multihash c ->
        block.get (IsCID other) s' = block.get (IsCID other) s)
  /\ writes s' = writes s.
Proof.
  unfold block.rm, block.get. destruct (block.cleanCid cid) as [c|] eqn:Hc; [|discriminate].
  unfold blockService_delete. intros [= <-]. simpl.
  unfold blockService.get; simpl. rewrite lookup_delete_eq. split; [reflexivity|].
  split; [|reflexivity]. intros other c' [= <-] Hne.
  rewrite lookup_delete_ne by congruence. reflexivity.
Qed.

(** X20: [stat] succeeds exactly where [get] does: it reports the length of
    the block [get] returns and the identifier in base 58, and fails
    with the error of [get]. *)
Theorem block_stat_agrees_with_get cid s :
  (forall blk, block.get cid s = Ok blk ->
     exists c, block.cleanCid cid = Ok c
       /\ block.stat cid s = Ok {| block.key := toB58String (cid_multihash c);
                                  block.size := Z.of_nat (length (Block_data blk)) |})
  /\ (forall err, block.get cid s = Fail err -> block.stat cid s = Fail err).
Proof.
  unfold block.get, block.stat.
  destruct (block.cleanCid cid) as [c|]; simpl.
  - destruct (blockService.get c s) as [bytes|]; simpl; split.
    + intros blk [= <-]. eauto.
    + discriminate.
    + discriminate.
    + now intros err [= <-].
  - split; [discriminate|]. now intros err [= <-].
Qed.

(** X21: what the object store puts, the block store shows: after a
    successful [object.put], [block.get] under the multihash of the node
    put answers with the encoding of that node, and [block.stat] reports
    its length; that length is the block size [object.stat] reports
    there when the encoding decodes back. *)
Theorem object_put_seen_by_block obj options s r s' :
  object.put obj options s = (Ok r, s') ->
  exists node,
    object.put_node obj (enc options) = Ok node
    /\ block.get (NotCID (inr (DAGNode.multihash node))) s'
       = Ok {| Block_data := pb_encode (DAGNode.data node) (DAGNode.links node) |}
    /\ (decodes_back node ->
        forall st bst options',
          object.stat (MhBuffer (DAGNode.multihash node)) options' s' = Ok st ->
          block.stat (NotCID (inr (DAGNode.multihash node))) s' = Ok bst ->
          block.size bst = BlockSize st).
Proof.
  unfold object.put. intros Hput.
  destruct (object.put_node obj (enc options)) as [node|]; [|discriminate].
  destruct (put_next_ok _ _ _ _ Hput) as (Hv & -> & Hdec & Hown).
  exists node. split; [reflexivity|].
  unfold block.get, block.stat, block.cleanCid. rewrite (new_CID_valid _ Hv).
  unfold blockService.get; simpl. rewrite lookup_insert_eq. simpl.
  split; [reflexivity|].
  intros Hback st bst options' Hst [= <-]. simpl.
  unfold object.stat in Hst. rewrite (get_buffer _ _ _ Hv) in Hst. simpl in Hst.
  rewrite lookup_insert_eq in Hst.
  destruct (decide _) as [_|Hne] in Hst; [|now rewrite Hown in Hne].
  unfold dagPB.deserialize in Hst.
  rewrite Hback in Hst. simpl in Hst. injection Hst as <-. reflexivity.
Qed.

(** X22: [block.rm] asks no question about links: once the block of a node
    is removed, [object.get] of that node fails with [NotFound]. *)
Theorem block_rm_then_object_get cid c s s' options :
  block.cleanCid cid = Ok c ->
  mh_validate (cid_multihash c) = true ->
  block.rm cid s = (Ok tt, s') ->
  object.get (MhBuffer (cid_multihash c)) options s' = Fail (LibError NotFound).
Proof.
  intros Hc Hv. unfold block.rm. rewrite Hc. unfold blockService_delete.
  intros [= <-]. rewrite (get_buffer _ _ _ Hv). simpl.
  now rewrite lookup_delete_eq.
Qed.
End BlockProperties.

(** * Properties of cli/commands/files/get.js *)

Section PathProperties.
Variable path_join : string -> string -> string.

Lemma length_append (a b : string) :
  String.length (String.append a b) = (String.length a + String.length b)%nat.
Proof. induction a as [|c a IH]; simpl; [reflexivity | now rewrite IH]. Qed.

Lemma substring_front (front rest : string) :
  String.substring 0 (String.length front) (String.append front rest) = front.
Proof.
  induction front as [|c front IH]; simpl.
  - now destruct rest.
  - now rewrite IH.
Qed.

Lemma substring_back (front back : string) :
  String.substring (String.length front) (String.length back) (String.append front back)
  = back.
Proof.
  induction front as [|c front IH]; [|exact IH].
  change (String.append EmptyString back) with back. simpl.
  induction back as [|c back IH]; simpl; [reflexivity | now rewrite IH].
Qed.

Lemma endsWith_append (front back : string) :
  JSStr.endsWith (String.append front back) back = true.
Proof.
  unfold JSStr.endsWith. rewrite length_append.
  replace (String.length back <=? String.length front + String.length back)%nat with true
    by (symmetry; apply Nat.leb_le; lia).
  replace (String.length front + String.length back - String.length back)%nat
    with (String.length front) by lia.
  rewrite substring_back. apply String.eqb_refl.
Qed.

Lemma startsWith_slash_append (s t : string) :
  JSStr.startsWith s "/" = true -> JSStr.startsWith (String.append s t) "/" = true.
Proof.
  unfold JSStr.startsWith.
  destruct s as [|c s]; [intros Hf; cbn in Hf; discriminate|].
  change (String.append (String c s) t) with (String c (String.append s t)).
  change (String.prefix "/" (String c s))
    with (if ascii_dec "/" c then String.prefix EmptyString s else false).
  change (String.prefix "/" (String c (String.append s t)))
    with (if ascii_dec "/" c then String.prefix EmptyString (String.append s t) else false).
  destruct (ascii_dec "/" c); [|discriminate].
  intros _. now destruct (String.append s t).
Qed.

(** X23: for an output path that is empty or starts with a slash, [checkArgs]
    never consults [path.join]: the directory is the path itself, with a
    slash added at its end if there was none; it ends and starts with a
    slash, the hash plays no part, and running [checkArgs] on it again
    changes nothing. *)
Theorem checkArgs_absolute hash hash' outPath :
  outPath = "" \/ JSStr.startsWith outPath "/" = true ->
  let dir := files_get.checkArgs path_join hash outPath in
  dir = (if JSStr.endsWith outPath "/" then outPath else String.append outPath "/")
  /\ JSStr.endsWith dir "/" = true
  /\ JSStr.startsWith dir "/" = true
  /\ files_get.checkArgs path_join hash' dir = dir.
Proof.
  intros Habs. cbv zeta.
  assert (Hdir : files_get.checkArgs path_join hash outPath
                 = if JSStr.endsWith outPath "/" then outPath else String.append outPath "/").
  { unfold files_get.checkArgs. destruct Habs as [->|Hs]; [reflexivity|].
    destruct (JSStr.endsWith outPath "/"); [now rewrite Hs|].
    now rewrite (startsWith_slash_append _ _ Hs). }
  assert (Hend : JSStr.endsWith (files_get.checkArgs path_join hash outPath) "/" = true).
  { rewrite Hdir. destruct (JSStr.endsWith outPath "/") eqn:He; [exact He|].
    apply endsWith_append. }
  assert (Hstart : JSStr.startsWith (files_get.checkArgs path_join hash outPath) "/" = true).
  { rewrite Hdir. destruct Habs as [->|Hs]; [reflexivity|].
    destruct (JSStr.endsWith outPath "/"); [exact Hs|].
    now apply startsWith_slash_append. }
  repeat split; try assumption.
  set (dir := files_get.checkArgs path_join hash outPath) in *.
  unfold files_get.checkArgs at 1. now rewrite Hend, Hstart.
Qed.

Lemma lastIndexOf_from_split c s i found :
  JSStr.lastIndexOf_from c s i found
  = match split_last c s with
    | Some (front, _) => (i + Z.of_nat (String.length front) - 1)%Z
    | None => found
    end.
Proof.
  revert i found. induction s as [|c' s IH]; intros i found; simpl; [reflexivity|].
  rewrite IH. destruct (split_last c s) as [[front rest]|]; simpl.
  - lia.
  - destruct (Ascii.eqb c c'); simpl; [lia | reflexivity].
Qed.

Lemma split_last_Some c s front rest :
  split_last c s = Some (front, rest) ->
  s = String.append front rest
  /\ ~ In c (list_ascii_of_string rest)
  /\ exists front', front = String.append front' (String c EmptyString).
Proof.
  revert front rest. induction s as [|c' s IH]; intros front rest; simpl; [discriminate|].
  destruct (split_last c s) as [[front0 rest0]|] eqn:Hs.
  - intros [= <- <-]. destruct (IH _ _ eq_refl) as (-> & Hnot & front' & ->).
    split; [reflexivity|]. split; [exact Hnot|]. exists (String c' front'). reflexivity.
  - destruct (Ascii.eqb c c') eqn:Hc; [|discriminate].
    apply Ascii.eqb_eq in Hc as <-. intros [= <- <-].
    split; [reflexivity|]. split; [|exists EmptyString; reflexivity].
    clear IH. induction s as [|c'' s IH]; simpl in *; [tauto|].
    destruct (split_last c s) as [[? ?]|]; [discriminate|].
    destruct (Ascii.eqb c c'') eqn:Hc; [discriminate|].
    apply Ascii.eqb_neq in Hc. intros [Heq|Hin]; [congruence|]. now apply IH.
Qed.

Lemma split_last_None c s :
  split_last c s = None -> ~ In c (list_ascii_of_string s).
Proof.
  induction s as [|c' s IH]; simpl; [tauto|].
  destruct (split_last c s) as [[? ?]|]; [discriminate|].
  destruct (Ascii.eqb c c') eqn:Hc; [discriminate|].
  apply Ascii.eqb_neq in Hc. intros _ [Heq|Hin]; [congruence|]. now apply IH.
Qed.

Lemma split_last_at_end c front :
  split_last c (String.append front (String c EmptyString))
  = Some (String.append front (String c EmptyString), EmptyString).
Proof.
  induction front as [|c' front IH]; simpl.
  - now rewrite Ascii.eqb_refl.
  - now rewrite IH.
Qed.

Lemma filePath_split path :
  files_get.filePath path
  = match split_last "/" path with
    | Some (front, _) => front
    | None => EmptyString
    end.
Proof.
  unfold files_get.filePath, JSStr.lastIndexOf, JSStr.substring.
  rewrite lastIndexOf_from_split.
  destruct (split_last "/" path) as [[front rest]|] eqn:Hs.
  - destruct (split_last_Some _ _ _ _ Hs) as (-> & _ & _).
    rewrite length_append.
    replace (Z.max 0 (Z.min 0 _)) with 0%Z by lia.
    replace (Z.max 0 (Z.min (0 + Z.of_nat (String.length front) - 1 + 1) _))
      with (Z.of_nat (String.length front)) by lia.
    replace (Z.min 0 (Z.of_nat (String.length front))) with 0%Z by lia.
    replace (Z.max 0 (Z.of_nat (String.length front)) - 0)%Z
      with (Z.of_nat (String.length front)) by lia.
    rewrite Nat2Z.id. apply substring_front.
  - replace (Z.max 0 (Z.min 0 _)) with 0%Z by lia.
    replace (Z.max 0 (Z.min (-1 + 1) _)) with 0%Z by lia.
    simpl. now destruct path.
Qed.

(** X24: the directory part [ensureDirFor] computes from the path of a file
    is the path cut behind its last slash: the path is that part
    followed by a name without a slash; the part is empty when the path
    has no slash and ends with a slash otherwise; and it is its own
    directory part. *)
Theorem filePath_cuts_behind_last_slash path :
  (exists base,
     path = String.append (files_get.filePath path) base
     /\ ~ In "/"%char (list_ascii_of_string base))
  /\ (In "/"%char (list_ascii_of_string path) ->
      JSStr.endsWith (files_get.filePath path) "/" = true)
  /\ (~ In "/"%char (list_ascii_of_string path) -> files_get.filePath path = "")
  /\ files_get.filePath (files_get.filePath path) = files_get.filePath path.
Proof.
  rewrite (filePath_split (files_get.filePath path)), !filePath_split.
  destruct (split_last "/" path) as [[front rest]|] eqn:Hs.
  - destruct (split_last_Some _ _ _ _ Hs) as (Hpath & Hnot & front' & ->).
    split; [eauto|]. split; [intros _; apply endsWith_append|]. split.
    + intros Hno. exfalso. apply Hno. rewrite Hpath.
      clear. induction front' as [|c f IH]; simpl; [now left | now right].
    + now rewrite split_last_at_end.
  - split; [exists path; split; [reflexivity | now apply split_last_None]|].
    split; [intros Hin; now apply split_last_None in Hs|]. split; reflexivity.
Qed.
End PathProperties.

(** * The properties on the concrete inputs *)

Import Sample Inputs.

Lemma get_node_abc :
  object.get (MhBuffer (DAGNode.multihash node_abc)) no_options store_abc = Ok node_abc.
Proof. vm_compute. reflexivity. Qed.

(** The theorems above at the concrete inputs. *)
Lemma get_altered_block_fails_verification_witness :
  object.get (MhBuffer (DAGNode.multihash node_abc)) no_options store_altered
  = Fail (LibError VerificationFailed)
  /\ forall node,
       object.get (MhBuffer (DAGNode.multihash node_abc)) no_options store_altered
       <> Ok node.
Proof.
  apply (get_altered_block_fails_verification
           (MhBuffer (DAGNode.multihash node_abc)) no_options store_altered
           (inr (DAGNode.multihash node_abc))
           {| cid_multihash := DAGNode.multihash node_abc |}
           (pb_encode xyz [link_a])).
  - vm_compute. reflexivity.
  - vm_compute. reflexivity.
  - vm_compute. reflexivity.
  - vm_compute. discriminate.
Defined.


Lemma stat_fields_witness :
  object.stat (MhBuffer (DAGNode.multihash node_abc)) no_options store_abc
  = Ok {| stat_Hash := toB58String (DAGNode.multihash node_abc);
          NumLinks := 1; BlockSize := 16; LinksSize := 13; DataSize := 3;
          CumulativeSize := Some 26%Z |}.
Proof.
  etransitivity.
  - apply (stat_fields (MhBuffer (DAGNode.multihash node_abc)) no_options store_abc node_abc).
    + vm_compute. reflexivity.
    + repeat constructor. simpl. eauto.
  - vm_compute. reflexivity.
Defined.

Lemma rmLink_missing_name_witness :
  object.patch.rmLink (MhBuffer (DAGNode.multihash node_abc)) (RefName "missing")
    no_options store_abc
  = (Fail (LibError LinkNotFound), store_abc).
Proof.
  apply (rmLink_missing_name (MhBuffer (DAGNode.multihash node_abc)) "missing"
           no_options store_abc node_abc).
  - vm_compute. reflexivity.
  - repeat constructor. simpl. discriminate.
Defined.

Lemma appendData_concat_witness :
  exists node' s' st,
    object.patch.appendData (MhBuffer (DAGNode.multihash node_abc)) [x64; x65]
      no_options store_abc = (Ok node', s')
    /\ DAGNode.data node' = [x61; x62; x63; x64; x65]
    /\ DAGNode.links node' = [link_a]
    /\ object.stat (MhBuffer (DAGNode.multihash node')) no_options s' = Ok st
    /\ DataSize st = 5%Z
    /\ CumulativeSize st = Some (BlockSize st + 10)%Z.
Proof.
  destruct (appendData_concat (MhBuffer (DAGNode.multihash node_abc)) [x64; x65]
              no_options store_abc node_abc)
    as (node' & s' & Happ & Hdata & Hlinks & Hstat).
  - vm_compute. reflexivity.
  - vm_compute. reflexivity.
  - rewrite Hdata, Hlinks in Hstat.
    destruct Hstat as (st & Hst & _ & Hscenario); [vm_compute; reflexivity|].
    destruct (Hscenario eq_refl eq_refl link_a eq_refl eq_refl) as [H5 Hcum].
    exists node', s', st. repeat split; assumption.
Defined.

Lemma setData_twice_same_identifier_witness :
  exists n1 s1 n2 s2,
    object.patch.setData (MhBuffer (DAGNode.multihash node_abc)) xyz no_options store_abc
      = (Ok n1, s1)
    /\ object.patch.setData (MhBuffer (DAGNode.multihash node_abc)) xyz no_options s1
      = (Ok n2, s2)
    /\ DAGNode.multihash n2 = DAGNode.multihash n1.
Proof.
  apply (setData_twice_same_identifier (MhBuffer (DAGNode.multihash node_abc)) xyz
           no_options store_abc node_abc).
  - vm_compute. reflexivity.
  - vm_compute. reflexivity.
  - vm_compute. reflexivity.
Defined.

Lemma new_persists_empty_node_witness :
  exists node s',
    object.new empty_store = (Ok node, s')
    /\ DAGNode.data node = [] /\ DAGNode.links node = []
    /\ DAGNode.multihash node = multihashing (pb_encode [] [])
    /\ writes s' = writes empty_store ++ [(DAGNode.multihash node, pb_encode [] [])]
    /\ blocks s' = <[DAGNode.multihash node := pb_encode [] []]> (blocks empty_store).
Proof.
  apply (new_persists_empty_node empty_store). vm_compute. reflexivity.
Defined.


Lemma rmLink_link_is_its_name_witness :
  object.patch.rmLink (MhBuffer (DAGNode.multihash node_abc)) (RefLink link_a)
    no_options store_abc
  = object.patch.rmLink (MhBuffer (DAGNode.multihash node_abc)) (RefName "a")
      no_options store_abc.
Proof.
  apply (rmLink_link_is_its_name (MhBuffer (DAGNode.multihash node_abc)) link_a "a"
           no_options store_abc).
  reflexivity.
Defined.


(** A link of size 0 is refused under either spelling, with the same
    error: spelled [Size], the 0 is falsy and the absent alias is read;
    spelled [size], the 0 itself reaches the constructor; neither is a
    size to it. *)
Lemma parse_Size_zero_refused_alike :
  parseJSONBuffer doc_Size
  = Fail (Error_failed_to_parse_JSON (AssertionError "A link requires a size"))
  /\ parseJSONBuffer doc_size = parseJSONBuffer doc_Size.
Proof. split; vm_compute; reflexivity. Qed.

(** C6 fails on the code at a link whose name is the empty string:
    spelled [Name], the empty string is falsy, the absent alias is read
    and the link gets no name; spelled [name], the link gets the empty
    name.  The two documents, which differ in that spelling only, parse
    to different nodes. *)
Theorem parse_Name_empty_differs :
  link_name {| Name := Some ""; name := None; Size := Some 10%Z; size := None;
               Hash := None; hash := None; multihash := None |} = None
  /\ link_name {| Name := None; name := Some ""; Size := Some 10%Z; size := None;
                  Hash := None; hash := None; multihash := None |} = Some ""
  /\ exists n1 n2,
       parseJSONBuffer doc_Name = Ok n1
       /\ parseJSONBuffer doc_name = Ok n2
       /\ map DAGLink._name (DAGNode.links n1) = [None]
       /\ map DAGLink._name (DAGNode.links n2) = [Some ""]
       /\ DAGNode.multihash n1 <> DAGNode.multihash n2.
Proof.
  split; [reflexivity|]. split; [reflexivity|].
  eexists _, _. split; [vm_compute; reflexivity|]. split; [vm_compute; reflexivity|].
  split; [reflexivity|]. split; [reflexivity|]. vm_compute. discriminate.
Qed.

(** * The further properties on concrete inputs *)

Import MoreInputs.

Lemma get_string_is_get_bytes_witness :
  object.get (MhString id_abc_b58) {| enc := Some "base58" |} store_abc
  = object.get (MhBuffer id_abc) no_options store_abc.
Proof. apply get_string_is_get_bytes. vm_compute. reflexivity. Defined.

Lemma get_failure_is_handed_on_witness :
  object.data (MhBuffer id_absent) no_options store_abc = Fail (LibError NotFound)
  /\ object.links (MhBuffer id_absent) no_options store_abc = Fail (LibError NotFound)
  /\ object.stat (MhBuffer id_absent) no_options store_abc = Fail (LibError NotFound)
  /\ (forall link, object.patch.addLink (MhBuffer id_absent) link no_options store_abc
                   = (Fail (LibError NotFound), store_abc))
  /\ (forall linkRef, object.patch.rmLink (MhBuffer id_absent) linkRef no_options store_abc
                      = (Fail (LibError NotFound), store_abc))
  /\ (forall bytes, object.patch.appendData (MhBuffer id_absent) bytes no_options store_abc
                    = (Fail (LibError NotFound), store_abc))
  /\ (forall bytes, object.patch.setData (MhBuffer id_absent) bytes no_options store_abc
                    = (Fail (LibError NotFound), store_abc)).
Proof. apply get_failure_is_handed_on. vm_compute. reflexivity. Defined.

Lemma failed_patch_writes_nothing_witness :
  snd (object.patch.rmLink (MhBuffer id_abc) (RefName "missing") no_options store_abc)
  = store_abc.
Proof.
  apply (failed_patch_writes_nothing
           (fun node => DAGNode.rmLink node (Some "missing"))
           (MhBuffer id_abc) no_options store_abc (LibError LinkNotFound)).
  vm_compute. reflexivity.
Defined.

Lemma stat_sizes_add_up_witness :
  (LinksSize stat_abc + DataSize stat_abc = BlockSize stat_abc)%Z
  /\ (0 <= NumLinks stat_abc)%Z /\ (0 <= DataSize stat_abc)%Z
  /\ (0 <= BlockSize stat_abc)%Z
  /\ exists node,
       object.get (MhBuffer id_abc) no_options store_abc = Ok node
       /\ (CumulativeSize stat_abc = None <-> ~ sizes_declared (DAGNode.links node)).
Proof.
  apply (stat_sizes_add_up (MhBuffer id_abc) no_options store_abc stat_abc).
  vm_compute. reflexivity.
Defined.

Lemma put_again_changes_no_block_witness :
  exists s2,
    object.put (PutObject abc [link_a]) no_options store_abc = (Ok node_abc, s2)
    /\ blocks s2 = blocks store_abc
    /\ length (writes s2) = S (length (writes store_abc)).
Proof.
  apply (put_again_changes_no_block (PutObject abc [link_a]) no_options empty_store
           node_abc store_abc).
  vm_compute. reflexivity.
Defined.

Lemma operations_write_at_most_one_block_witness :
  snd (object.new empty_store) = empty_store
  \/ wrote_one_block empty_store (snd (object.new empty_store)).
Proof.
  destruct (operations_write_at_most_one_block empty_store) as [Hnew _].
  apply (Hnew (fst (object.new empty_store))). vm_compute. reflexivity.
Defined.

Lemma patch_leaves_other_identifiers_witness :
  object.get (MhBuffer id_abc) no_options store_xyz
  = object.get (MhBuffer id_abc) no_options store_abc.
Proof.
  apply (patch_leaves_other_identifiers
           (fun node => DAGNode.create xyz (DAGNode.links node))
           (MhBuffer id_abc) no_options store_abc node_xyz store_xyz).
  - vm_compute. reflexivity.
  - vm_compute. discriminate.
Defined.

Lemma patched_node_can_be_fetched_witness :
  object.get (MhBuffer (DAGNode.multihash node_xyz)) no_options store_xyz = Ok node_xyz.
Proof.
  apply (patched_node_can_be_fetched (MhBuffer id_abc) no_options store_abc
           node_xyz store_xyz).
  - right. right. right. exists xyz. vm_compute. reflexivity.
  - vm_compute. reflexivity.
Defined.

Lemma appendData_in_two_steps_witness :
  exists n2 s12,
    object.patch.appendData (MhBuffer id_abc) [x64; x65] no_options store_abc = (Ok n2, s12)
    /\ DAGNode.data n2 = [x61; x62; x63; x64; x65].
Proof.
  destruct (appendData_in_two_steps (MhBuffer id_abc) [x64] [x65] no_options no_options
              store_abc node_abc)
    as (s1 & n2 & s2 & s12 & _ & _ & Honce & Hdata).
  - vm_compute. reflexivity.
  - vm_compute. reflexivity.
  - vm_compute. reflexivity.
  - vm_compute. reflexivity.
  - exists n2, s12. split; [exact Honce | exact Hdata].
Defined.

Lemma put_buffer_accepted_encodings_witness :
  truthy (enc no_options) = false
  \/ enc no_options = Some "json" \/ enc no_options = Some "protobuf".
Proof.
  apply (put_buffer_accepted_encodings abc no_options empty_store node_raw
           (snd (object.put (PutBuffer abc) no_options empty_store))).
  vm_compute. reflexivity.
Defined.

Lemma parse_failures_tell_the_format_witness :
  parseBuffer (json "{") (Some "json")
  = Fail (Error_failed_to_parse_JSON (SyntaxError "Unexpected token in JSON")).
Proof.
  destruct (parse_failures_tell_the_format (json "{")) as (Hsyntax & _).
  apply Hsyntax. vm_compute. reflexivity.
Defined.

Lemma parseJSONDoc_keeps_links_witness :
  Forall2 (fun entry l =>
             DAGLink._name l = link_name entry
             /\ DAGLink.size l = link_size entry
             /\ fromB58String (link_hash entry) = Ok (DAGLink.multihash l))
          (default [] (Links parsed_size)) [DAGLink.mk (Some "a") (Some 10%Z) target]
  /\ exists str, Data parsed_size = Some str /\ Buffer_from str None = Ok abc.
Proof.
  apply (parseJSONDoc_keeps_links parsed_size abc [DAGLink.mk (Some "a") (Some 10%Z) target]).
  vm_compute. reflexivity.
Defined.

Lemma parseJSONDoc_bad_link_witness :
  exists err', parseJSONDoc parsed_bad = Fail err'.
Proof.
  apply (parseJSONDoc_bad_link parsed_bad entry_bad (LibError MalformedIdentifier)).
  - left. reflexivity.
  - vm_compute. reflexivity.
Defined.

Lemma link_hash_precedence_witness :
  link_hash entry_hash = Some target_b58.
Proof.
  destruct (link_hash_precedence entry_hash) as (_ & Hsecond & _).
  apply Hsecond; reflexivity.
Defined.


Lemma failed_block_put_writes_nothing_witness :
  snd (block.put BlockArray None store_abc) = store_abc.
Proof.
  destruct (failed_block_put_writes_nothing store_abc) as [_ Hfail].
  apply (Hfail BlockArray None Error_Array_is_not_supported). vm_compute. reflexivity.
Defined.

Lemma block_put_then_get_witness :
  exists s',
    block.put (BlockBuffer abc) None empty_store = (Done {| Block_data := abc |}, s')
    /\ wrote_one_block empty_store s'
    /\ block.get (NotCID (inr (multihashing abc))) s' = Ok {| Block_data := abc |}
    /\ block.stat (NotCID (inr (multihashing abc))) s'
       = Ok {| block.key := toB58String (multihashing abc); block.size := 3 |}.
Proof.
  apply (block_put_then_get (BlockBuffer abc) {| Block_data := abc |} empty_store).
  - reflexivity.
  - vm_compute. reflexivity.
Defined.

Lemma block_put_trusts_the_cid_witness :
  exists s',
    block.put (BlockBuffer abc) (Some cid_odd) empty_store = (Done {| Block_data := abc |}, s')
    /\ blocks s' = <[cid_multihash cid_odd := abc]> (blocks empty_store)
    /\ block.get (IsCID cid_odd) s' = Ok {| Block_data := abc |}.
Proof.
  apply (block_put_trusts_the_cid (BlockBuffer abc) {| Block_data := abc |} cid_odd
           empty_store).
  reflexivity.
Defined.

Lemma block_rm_then_get_witness :
  block.get (NotCID (inr id_abc)) (snd (block.rm (NotCID (inr id_abc)) store_abc))
  = Fail (LibError NotFound).
Proof.
  apply (block_rm_then_get (NotCID (inr id_abc)) store_abc
           (snd (block.rm (NotCID (inr id_abc)) store_abc))).
  vm_compute. reflexivity.
Defined.

Lemma block_stat_agrees_with_get_witness :
  exists c,
    block.cleanCid (NotCID (inr id_abc)) = Ok c
    /\ block.stat (NotCID (inr id_abc)) store_abc
       = Ok {| block.key := toB58String (cid_multihash c);
               block.size := Z.of_nat (length (pb_encode abc [link_a])) |}.
Proof.
  destruct (block_stat_agrees_with_get (NotCID (inr id_abc)) store_abc) as [Hok _].
  apply (Hok {| Block_data := pb_encode abc [link_a] |}). vm_compute. reflexivity.
Defined.

Lemma object_put_seen_by_block_witness :
  exists node,
    object.put_node (PutObject abc [link_a]) (enc no_options) = Ok node
    /\ block.get (NotCID (inr (DAGNode.multihash node))) store_abc
       = Ok {| Block_data := pb_encode (DAGNode.data node) (DAGNode.links node) |}
    /\ (decodes_back node ->
        forall st bst options',
          object.stat (MhBuffer (DAGNode.multihash node)) options' store_abc = Ok st ->
          block.stat (NotCID (inr (DAGNode.multihash node))) store_abc = Ok bst ->
          block.size bst = BlockSize st).
Proof.
  apply (object_put_seen_by_block (PutObject abc [link_a]) no_options empty_store
           node_abc store_abc).
  vm_compute. reflexivity.
Defined.

Lemma block_rm_then_object_get_witness :
  object.get (MhBuffer id_abc) no_options (snd (block.rm (NotCID (inr id_abc)) store_abc))
  = Fail (LibError NotFound).
Proof.
  apply (block_rm_then_object_get (NotCID (inr id_abc)) {| cid_multihash := id_abc |}
           store_abc (snd (block.rm (NotCID (inr id_abc)) store_abc)) no_options).
  - vm_compute. reflexivity.
  - vm_compute. reflexivity.
  - vm_compute. reflexivity.
Defined.

Lemma checkArgs_absolute_witness :
  files_get.checkArgs join "QmHash" "/tmp/out" = "/tmp/out/"
  /\ JSStr.endsWith (files_get.checkArgs join "QmHash" "/tmp/out") "/" = true
  /\ JSStr.startsWith (files_get.checkArgs join "QmHash" "/tmp/out") "/" = true
  /\ files_get.checkArgs join "QmOther" (files_get.checkArgs join "QmHash" "/tmp/out")
     = files_get.checkArgs join "QmHash" "/tmp/out".
Proof.
  apply (checkArgs_absolute join "QmHash" "QmOther" "/tmp/out").
  right. reflexivity.
Defined.

Lemma filePath_cuts_behind_last_slash_witness :
  JSStr.endsWith (files_get.filePath "a/b/c.txt") "/" = true.
Proof.
  destruct (filePath_cuts_behind_last_slash "a/b/c.txt") as (_ & Hslash & _).
  apply Hslash. vm_compute. right. left. reflexivity.
Defined.
